(** * StelNavigator: time keeping, observer and reference-frame matrices

    A shallow embedding of [src/core/StelNavigator.cpp] (Stellarium).

    Conventions of the embedding.
    - A C++ [double] is a real number of [R]: arithmetic is exact, and the
      comparisons of the source ([<], [>=], ...) are the decidable order of
      [R].  Rounding, infinities and NaN are outside that model: what is
      proved in it about data flow, the choice of a branch and the order of
      calls is the same on doubles, while an identity between computed
      numbers is one of exact arithmetic, and is stated as such.
    - Where an infinity or a NaN decides the matter (the bounds of the
      Julian Day, the time rate after many key presses), the statements of
      the source are also rendered on the binary64 floats of [PrimFloat],
      in module [Binary64].
    - The member variables of [StelNavigator] are the fields of the record
      [StelNavigator.t], under their source names; a member function that
      mutates the object is a function returning the new record.
    - Calls that leave the navigator (selection manager, solar system,
      the [locationChanged] signal, the observer's [update]) are recorded,
      in program order, in the call log of [Collaborators.t].
    - The classes behind [position] ([StelObserver], [SpaceShipObserver])
      and [Planet] are not part of the translated file: they are interfaces
      ([StelObserver.API], [Planet.API]) whose members carry the names the
      source calls them by.
    - [init] and the functions that only move values between the settings,
      Qt's date and time classes and the navigator are not embedded. *)

From Stdlib Require Import Reals Lra List String Bool.
From Stdlib Require PrimFloat SpecFloat FloatOps FloatAxioms.
Import ListNotations.

Local Open Scope R_scope.

(** ** Vector and matrix primitives (VecMath) *)

(** Modelled from the spec: the 3-vector of the math library (section 2,
    "Vector/Matrix primitives"), with the operations the navigator uses:
    unary minus, cross product [^] and [normalize]. *)
Module Vec3d.

Record t : Type := mk { x : R; y : R; z : R }.

Definition neg (a : t) : t := mk (- x a) (- y a) (- z a).

Definition cross (a b : t) : t :=
  mk (y a * z b - z a * y b)
     (z a * x b - x a * z b)
     (x a * y b - y a * x b).

Definition lengthSquared (a : t) : R := x a * x a + y a * y a + z a * z a.

Definition normalize (a : t) : t :=
  let s := 1 / sqrt (lengthSquared a) in
  mk (x a * s) (y a * s) (z a * s).

End Vec3d.

Definition Vec3d : Type := Vec3d.t.

(** Modelled from the spec: the 4x4 homogeneous matrix of the math library
    (section 2), stored column after column in [r0 .. r15] ([r12 r13 r14]
    is the translation), with product, transpose, the translation and
    rotation constructors, and the action on a 3-vector taken as a point. *)
Module Mat4d.

Record t : Type := mk {
  r0 : R;  r1 : R;  r2 : R;  r3 : R;
  r4 : R;  r5 : R;  r6 : R;  r7 : R;
  r8 : R;  r9 : R;  r10 : R; r11 : R;
  r12 : R; r13 : R; r14 : R; r15 : R
}.

Definition identity : t :=
  mk 1 0 0 0
     0 1 0 0
     0 0 1 0
     0 0 0 1.

Definition transpose (m : t) : t :=
  mk (r0 m) (r4 m) (r8 m)  (r12 m)
     (r1 m) (r5 m) (r9 m)  (r13 m)
     (r2 m) (r6 m) (r10 m) (r14 m)
     (r3 m) (r7 m) (r11 m) (r15 m).

Definition translation (a : Vec3d) : t :=
  mk 1 0 0 0
     0 1 0 0
     0 0 1 0
     (Vec3d.x a) (Vec3d.y a) (Vec3d.z a) 1.

Definition xrotation (angle : R) : t :=
  let c := cos angle in
  let s := sin angle in
  mk 1 0 0 0
     0 c s 0
     0 (- s) c 0
     0 0 0 1.

Definition zrotation (angle : R) : t :=
  let c := cos angle in
  let s := sin angle in
  mk c s 0 0
     (- s) c 0 0
     0 0 1 0
     0 0 0 1.

(** Row [i] of [m] times column [j] of [a], for the four rows. *)
Definition mul (m a : t) : t :=
  mk (r0 m * r0 a + r4 m * r1 a + r8 m * r2 a + r12 m * r3 a)
     (r1 m * r0 a + r5 m * r1 a + r9 m * r2 a + r13 m * r3 a)
     (r2 m * r0 a + r6 m * r1 a + r10 m * r2 a + r14 m * r3 a)
     (r3 m * r0 a + r7 m * r1 a + r11 m * r2 a + r15 m * r3 a)
     (r0 m * r4 a + r4 m * r5 a + r8 m * r6 a + r12 m * r7 a)
     (r1 m * r4 a + r5 m * r5 a + r9 m * r6 a + r13 m * r7 a)
     (r2 m * r4 a + r6 m * r5 a + r10 m * r6 a + r14 m * r7 a)
     (r3 m * r4 a + r7 m * r5 a + r11 m * r6 a + r15 m * r7 a)
     (r0 m * r8 a + r4 m * r9 a + r8 m * r10 a + r12 m * r11 a)
     (r1 m * r8 a + r5 m * r9 a + r9 m * r10 a + r13 m * r11 a)
     (r2 m * r8 a + r6 m * r9 a + r10 m * r10 a + r14 m * r11 a)
     (r3 m * r8 a + r7 m * r9 a + r11 m * r10 a + r15 m * r11 a)
     (r0 m * r12 a + r4 m * r13 a + r8 m * r14 a + r12 m * r15 a)
     (r1 m * r12 a + r5 m * r13 a + r9 m * r14 a + r13 m * r15 a)
     (r2 m * r12 a + r6 m * r13 a + r10 m * r14 a + r14 m * r15 a)
     (r3 m * r12 a + r7 m * r13 a + r11 m * r14 a + r15 m * r15 a).

(** [m * v] for a 3-vector: [v] is the point [(x, y, z, 1)]. *)
Definition mulv (m : t) (a : Vec3d) : Vec3d :=
  Vec3d.mk
    (r0 m * Vec3d.x a + r4 m * Vec3d.y a + r8 m * Vec3d.z a + r12 m)
    (r1 m * Vec3d.x a + r5 m * Vec3d.y a + r9 m * Vec3d.z a + r13 m)
    (r2 m * Vec3d.x a + r6 m * Vec3d.y a + r10 m * Vec3d.z a + r14 m).

(** A pure rotation: no translation, last row [(0, 0, 0, 1)], and the
    transpose is a left inverse. *)
Definition is_rotation (m : t) : Prop :=
  r12 m = 0 /\ r13 m = 0 /\ r14 m = 0 /\
  r3 m = 0 /\ r7 m = 0 /\ r11 m = 0 /\ r15 m = 1 /\
  mul (transpose m) m = identity.

End Mat4d.

Definition Mat4d : Type := Mat4d.t.

Declare Scope vecmath_scope.
Delimit Scope vecmath_scope with vm.
Infix "*m" := Mat4d.mul (at level 40, left associativity) : vecmath_scope.
Infix "*v" := Mat4d.mulv (at level 40, left associativity) : vecmath_scope.
Local Open Scope vecmath_scope.

(** ** Collaborators of the navigator *)

(** Modelled from the spec: the location record [StelLocation] (section 4.2):
    the identifier fields the source assigns ([planetName], [name], [state])
    and the numeric fields a transition interpolates. *)
Module StelLocation.

Record t : Type := mk {
  name : string;
  state : string;
  planetName : string;
  longitude : R;
  latitude : R;
  altitude : R
}.

End StelLocation.

Definition StelLocation : Type := StelLocation.t.

(** Modelled from the spec: the ephemeris interface of a body (section 6):
    its English name, sidereal-day length and heliocentric ecliptic position.
    A [PlanetP] is a pointer: [eq_dec] is pointer comparison. *)
Module Planet.

Class API (Planet : Type) : Type := {
  eq_dec : forall p q : Planet, {p = q} + {p <> q};
  getEnglishName : Planet -> string;
  getSiderealDay : Planet -> R;
  getHeliocentricEclipticPos : Planet -> Vec3d
}.

End Planet.

(** Modelled from the spec: the observer contract (section 4.2) that both
    [StelObserver] (static) and [SpaceShipObserver] (in transit) implement,
    with the two constructors the navigator calls.  [update] mutates the
    observer: it returns the refreshed one. *)
Module StelObserver.

Class API (Planet Observer : Type) : Type := {
  new_StelObserver : StelLocation -> Observer;
  new_SpaceShipObserver : StelLocation -> StelLocation -> R -> Observer;
  getCurrentLocation : Observer -> StelLocation;
  getHomePlanet : Observer -> Planet;
  isObserverLifeOver : Observer -> bool;
  getNextObserver : Observer -> Observer;
  update : R -> Observer -> Observer;
  getRotAltAzToEquatorial : R -> Observer -> Mat4d;
  getRotEquatorialToVsop87 : Observer -> Mat4d;
  getCenterVsop87Pos : Observer -> Vec3d;
  getDistanceFromCenter : Observer -> R
}.

End StelObserver.

(** The world outside the navigator: what the selection manager holds, and
    the calls the navigator made on its collaborators, oldest first. *)
Module Collaborators.

Section WithPlanet.
Context {Planet : Type} {PA : Planet.API Planet}.

(** A selectable sky object; only a planet can be the observer's home. *)
Inductive StelObject : Type :=
| PlanetObject (p : Planet)
| OtherObject (id : nat).

Inductive Call : Type :=
| unSelect_called
| update_called (deltaTime : R)
| computePositions_called (date : R) (observerPos : Vec3d)
| locationChanged_emitted (target : StelLocation).

Record t : Type := mk {
  selectedObject : list StelObject;
  calls : list Call
}.

Definition record (c : Call) (w : t) : t :=
  mk (selectedObject w) (calls w ++ [c]).

(** Modelled from the spec: [StelObjectMgr::getWasSelected]
    (section 6, "isAnySelected"). *)
Definition getWasSelected (w : t) : bool :=
  match selectedObject w with
  | [] => false
  | _ :: _ => true
  end.

(** Modelled from the spec: [StelObjectMgr::unSelect]
    (section 6, "clearSelection"). *)
Definition unSelect (w : t) : t :=
  mk [] (calls w ++ [unSelect_called]).

(** The [locationChanged] signals among the calls. *)
Definition is_locationChanged (c : Call) : bool :=
  match c with
  | locationChanged_emitted _ => true
  | _ => false
  end.

(** [obj.data() == planet]: the same object, compared by pointer. *)
Definition same_object (o : StelObject) (p : Planet) : bool :=
  match o with
  | PlanetObject q => if Planet.eq_dec q p then true else false
  | OtherObject _ => false
  end.

(** [dynamic_cast<Planet*>(obj.data())]: the planet a selected object is,
    if it is one. *)
Definition as_Planet (o : StelObject) : option Planet :=
  match o with
  | PlanetObject p => Some p
  | OtherObject _ => None
  end.

End WithPlanet.

Arguments StelObject Planet : clear implicits.
Arguments Call : clear implicits.
Arguments t Planet : clear implicits.

End Collaborators.


(** ** Comparisons of doubles

    The relational operators of the source, as booleans over [R]. *)
Module Double.

Definition ltb (a b : R) : bool := if Rlt_dec a b then true else false.
Definition leb (a b : R) : bool := if Rle_dec a b then true else false.
Definition gtb (a b : R) : bool := ltb b a.
Definition geb (a b : R) : bool := leb b a.

(** [fabs] of the C library. *)
Definition fabs (a : R) : R := Rabs a.

End Double.

Declare Scope double_scope.
Delimit Scope double_scope with double.
Infix "<?" := Double.ltb (at level 70, no associativity) : double_scope.
Infix "<=?" := Double.leb (at level 70, no associativity) : double_scope.
Infix ">?" := Double.gtb (at level 70, no associativity) : double_scope.
Infix ">=?" := Double.geb (at level 70, no associativity) : double_scope.
Local Open Scope double_scope.

(** ** The navigator *)
Module StelNavigator.

(** [StelNavigator::MountMode]. *)
Inductive MountMode : Type :=
| MountAltAzimuthal
| MountEquatorial.

(** *** Static transformation matrices (see vsop87.doc) *)

Definition matJ2000ToVsop87 : Mat4d :=
  Mat4d.xrotation (-23.4392803055555555556 * (PI / 180))
  *m Mat4d.zrotation (0.0000275 * (PI / 180)).

Definition matVsop87ToJ2000 : Mat4d := Mat4d.transpose matJ2000ToVsop87.

Definition matJ2000toGalactic : Mat4d :=
  Mat4d.mk (-0.054875539726) 0.494109453312 (-0.867666135858) 0
           (-0.873437108010) (-0.444829589425) (-0.198076386122) 0
           (-0.483834985808) 0.746982251810 0.455983795705 0
           0 0 0 1.

(** The Julian Day bounds [updateTime] clamps to. *)
Definition JDay_max : R := 38245309.499988.
Definition JDay_min : R := -34803211.500012.

Section Model.

Context {Planet Observer : Type}.
Context {PA : Planet.API Planet} {OA : StelObserver.API Planet Observer}.

(** The macro [JD_SECOND] of StelUtils.hpp (one second, in days) is not part
    of the translated file: it is a parameter of the model. *)
Variable JD_SECOND : R.

(** The member variables of the class the translated functions read or
    write.  [position] is the owned observer. *)
Record t : Type := mk {
  timeSpeed : R;
  JDay : R;
  position : Observer;
  altAzVisionDirection : Vec3d;
  earthEquVisionDirection : Vec3d;
  J2000EquVisionDirection : Vec3d;
  mountMode : MountMode;
  matAltAzToEquinoxEqu : Mat4d;
  matEquinoxEquToAltAz : Mat4d;
  matEquinoxEquToJ2000 : Mat4d;
  matJ2000ToEquinoxEqu : Mat4d;
  matJ2000ToAltAz : Mat4d;
  matHeliocentricEclipticToEquinoxEqu : Mat4d;
  matAltAzToHeliocentricEcliptic : Mat4d;
  matHeliocentricEclipticToAltAz : Mat4d;
  matAltAzModelView : Mat4d
}.

(** Assignment to one member variable. *)
Definition set_timeSpeed (v : R) (n : t) : t :=
  mk v (JDay n) (position n)
     (altAzVisionDirection n) (earthEquVisionDirection n)
     (J2000EquVisionDirection n) (mountMode n)
     (matAltAzToEquinoxEqu n) (matEquinoxEquToAltAz n)
     (matEquinoxEquToJ2000 n) (matJ2000ToEquinoxEqu n) (matJ2000ToAltAz n)
     (matHeliocentricEclipticToEquinoxEqu n)
     (matAltAzToHeliocentricEcliptic n) (matHeliocentricEclipticToAltAz n)
     (matAltAzModelView n).

Definition set_JDay (v : R) (n : t) : t :=
  mk (timeSpeed n) v (position n)
     (altAzVisionDirection n) (earthEquVisionDirection n)
     (J2000EquVisionDirection n) (mountMode n)
     (matAltAzToEquinoxEqu n) (matEquinoxEquToAltAz n)
     (matEquinoxEquToJ2000 n) (matJ2000ToEquinoxEqu n) (matJ2000ToAltAz n)
     (matHeliocentricEclipticToEquinoxEqu n)
     (matAltAzToHeliocentricEcliptic n) (matHeliocentricEclipticToAltAz n)
     (matAltAzModelView n).

Definition set_position (v : Observer) (n : t) : t :=
  mk (timeSpeed n) (JDay n) v
     (altAzVisionDirection n) (earthEquVisionDirection n)
     (J2000EquVisionDirection n) (mountMode n)
     (matAltAzToEquinoxEqu n) (matEquinoxEquToAltAz n)
     (matEquinoxEquToJ2000 n) (matJ2000ToEquinoxEqu n) (matJ2000ToAltAz n)
     (matHeliocentricEclipticToEquinoxEqu n)
     (matAltAzToHeliocentricEcliptic n) (matHeliocentricEclipticToAltAz n)
     (matAltAzModelView n).

Definition set_altAzVisionDirection (v : Vec3d) (n : t) : t :=
  mk (timeSpeed n) (JDay n) (position n)
     v (earthEquVisionDirection n)
     (J2000EquVisionDirection n) (mountMode n)
     (matAltAzToEquinoxEqu n) (matEquinoxEquToAltAz n)
     (matEquinoxEquToJ2000 n) (matJ2000ToEquinoxEqu n) (matJ2000ToAltAz n)
     (matHeliocentricEclipticToEquinoxEqu n)
     (matAltAzToHeliocentricEcliptic n) (matHeliocentricEclipticToAltAz n)
     (matAltAzModelView n).

Definition set_earthEquVisionDirection (v : Vec3d) (n : t) : t :=
  mk (timeSpeed n) (JDay n) (position n)
     (altAzVisionDirection n) v
     (J2000EquVisionDirection n) (mountMode n)
     (matAltAzToEquinoxEqu n) (matEquinoxEquToAltAz n)
     (matEquinoxEquToJ2000 n) (matJ2000ToEquinoxEqu n) (matJ2000ToAltAz n)
     (matHeliocentricEclipticToEquinoxEqu n)
     (matAltAzToHeliocentricEcliptic n) (matHeliocentricEclipticToAltAz n)
     (matAltAzModelView n).

Definition set_J2000EquVisionDirection (v : Vec3d) (n : t) : t :=
  mk (timeSpeed n) (JDay n) (position n)
     (altAzVisionDirection n) (earthEquVisionDirection n)
     v (mountMode n)
     (matAltAzToEquinoxEqu n) (matEquinoxEquToAltAz n)
     (matEquinoxEquToJ2000 n) (matJ2000ToEquinoxEqu n) (matJ2000ToAltAz n)
     (matHeliocentricEclipticToEquinoxEqu n)
     (matAltAzToHeliocentricEcliptic n) (matHeliocentricEclipticToAltAz n)
     (matAltAzModelView n).

Definition set_matAltAzModelView (v : Mat4d) (n : t) : t :=
  mk (timeSpeed n) (JDay n) (position n)
     (altAzVisionDirection n) (earthEquVisionDirection n)
     (J2000EquVisionDirection n) (mountMode n)
     (matAltAzToEquinoxEqu n) (matEquinoxEquToAltAz n)
     (matEquinoxEquToJ2000 n) (matJ2000ToEquinoxEqu n) (matJ2000ToAltAz n)
     (matHeliocentricEclipticToEquinoxEqu n)
     (matAltAzToHeliocentricEcliptic n) (matHeliocentricEclipticToAltAz n)
     v.

(** *** Inline members declared in StelNavigator.hpp *)

(** Modelled from the spec: the read accessors of the Julian Day and of the
    time rate, and the write accessor of the rate (section 6, "read
    accessors plus the mutators"). *)
Definition getJDay (n : t) : R := JDay n.
Definition getTimeRate (n : t) : R := timeSpeed n.
Definition setTimeRate (ts : R) (n : t) : t := set_timeSpeed ts n.

(** Modelled from the spec: [StelNavigator::setMountMode] (section 3,
    "MountMode ... mutated by user action"). *)
Definition setMountMode (m : MountMode) (n : t) : t :=
  mk (timeSpeed n) (JDay n) (position n)
     (altAzVisionDirection n) (earthEquVisionDirection n)
     (J2000EquVisionDirection n) m
     (matAltAzToEquinoxEqu n) (matEquinoxEquToAltAz n)
     (matEquinoxEquToJ2000 n) (matJ2000ToEquinoxEqu n) (matJ2000ToAltAz n)
     (matHeliocentricEclipticToEquinoxEqu n)
     (matAltAzToHeliocentricEcliptic n) (matHeliocentricEclipticToAltAz n)
     (matAltAzModelView n).

(** Modelled from the spec: the frame conversions of a vector "via the
    current transform matrices" (section 4.3). *)
Definition altAzToEquinoxEqu (n : t) (v : Vec3d) : Vec3d :=
  matAltAzToEquinoxEqu n *v v.
Definition equinoxEquToAltAz (n : t) (v : Vec3d) : Vec3d :=
  matEquinoxEquToAltAz n *v v.

(** The body of [StelNavigator::setJDay] is in StelNavigator.hpp, and the
    specification does not settle whether it clamps: the setter is a
    parameter, and a property that reads the Julian Day back after a call
    states what it needs of it. *)
Variable setJDay : R -> t -> t.

(** *** Time *)

(** [StelNavigator::setTimeNow]; [now] is what [StelUtils::getJDFromSystem]
    returns at the time of the call. *)
Definition setTimeNow (now : R) (n : t) : t :=
  setJDay now n.

(** The two function-local statics of [getIsTimeNow]. *)
Record IsTimeNowStatics : Type := mkStatics {
  lastJD : R;
  previousResult : bool
}.

(** [StelNavigator::getIsTimeNow].  The statics are [None] until the first
    call initialises them; [now] is the system clock, read only where the
    source reads it. *)
Definition getIsTimeNow (now : R) (n : t) (statics : option IsTimeNowStatics)
  : bool * IsTimeNowStatics :=
  let st :=
    match statics with
    | Some st => st
    | None =>
        mkStatics (getJDay n)
                  (Double.fabs (getJDay n - now) <? JD_SECOND)
    end in
  if Double.fabs (lastJD st - getJDay n) >? JD_SECOND / 4
  then
    let r := Double.fabs (getJDay n - now) <? JD_SECOND in
    (r, mkStatics (getJDay n) r)
  else (previousResult st, st).

Definition addSolarDays (d : R) (n : t) : t :=
  setJDay (getJDay n + d) n.

Definition addSiderealDays (d : R) (n : t) : t :=
  let home := StelObserver.getHomePlanet (position n) in
  let d :=
    if negb (String.eqb (Planet.getEnglishName home)
                        "Solar System StelObserver")
    then d * Planet.getSiderealDay home
    else d in
  setJDay (getJDay n + d) n.

(** *** Observer *)

Definition getCurrentLocation (n : t) : StelLocation :=
  StelObserver.getCurrentLocation (position n).

(** [position->update(deltaTime)]: the observer refreshes itself, and the
    call is logged. *)
Definition position_update (deltaTime : R)
  (s : t * Collaborators.t Planet) : t * Collaborators.t Planet :=
  (set_position (StelObserver.update deltaTime (position (fst s))) (fst s),
   Collaborators.record (Collaborators.update_called deltaTime) (snd s)).

Definition moveObserverTo (target : StelLocation)
  (duration durationIfPlanetChange : R)
  (n : t) (w : Collaborators.t Planet) : t * Collaborators.t Planet :=
  let d :=
    if String.eqb (StelLocation.planetName (getCurrentLocation n))
                  (StelLocation.planetName target)
    then duration else durationIfPlanetChange in
  let s :=
    if d >? 0
    then
      let newObs :=
        StelObserver.new_SpaceShipObserver (getCurrentLocation n) target d in
      position_update 0 (set_position newObs n, w)
    else (set_position (StelObserver.new_StelObserver target) n, w) in
  (fst s,
   Collaborators.record (Collaborators.locationChanged_emitted target) (snd s)).

Definition getLocalSideralDayLength (n : t) : R :=
  Planet.getSiderealDay (StelObserver.getHomePlanet (position n)).

(** *** Time rate *)

Definition increaseTimeSpeed (n : t) : t :=
  let s := getTimeRate n in
  let s :=
    if s >=? JD_SECOND then s * 10
    else if s <? - JD_SECOND then s / 10
    else if (s >=? 0) && (s <? JD_SECOND) then JD_SECOND
    else if (s >=? - JD_SECOND) && (s <? 0) then 0
    else s in
  setTimeRate s n.

Definition decreaseTimeSpeed (n : t) : t :=
  let s := getTimeRate n in
  let s :=
    if s >? JD_SECOND then s / 10
    else if s <=? - JD_SECOND then s * 10
    else if (s >? - JD_SECOND) && (s <=? 0) then - JD_SECOND
    else if (s >? 0) && (s <=? JD_SECOND) then 0
    else s in
  setTimeRate s n.

Definition increaseTimeSpeedLess (n : t) : t :=
  let s := getTimeRate n in
  let s :=
    if s >=? JD_SECOND then s * 2
    else if s <? - JD_SECOND then s / 2
    else if (s >=? 0) && (s <? JD_SECOND) then JD_SECOND
    else if (s >=? - JD_SECOND) && (s <? 0) then 0
    else s in
  setTimeRate s n.

Definition decreaseTimeSpeedLess (n : t) : t :=
  let s := getTimeRate n in
  let s :=
    if s >? JD_SECOND then s / 2
    else if s <=? - JD_SECOND then s * 2
    else if (s >? - JD_SECOND) && (s <=? 0) then - JD_SECOND
    else if (s >? 0) && (s <=? JD_SECOND) then 0
    else s in
  setTimeRate s n.

(** *** Vision direction and view matrix *)

Definition updateModelViewMat (n : t) : t :=
  let f :=
    match mountMode n with
    | MountEquatorial => earthEquVisionDirection n
    | MountAltAzimuthal => altAzVisionDirection n
    end in
  let f := Vec3d.normalize f in
  let s := Vec3d.mk (Vec3d.y f) (- Vec3d.x f) 0 in
  let fs :=
    match mountMode n with
    | MountEquatorial =>
        (Vec3d.normalize (altAzVisionDirection n), equinoxEquToAltAz n s)
    | MountAltAzimuthal => (f, s)
    end in
  let f := fst fs in
  let s := snd fs in
  let u := Vec3d.cross s f in
  let s := Vec3d.normalize s in
  let u := Vec3d.normalize u in
  set_matAltAzModelView
    (Mat4d.mk (Vec3d.x s) (Vec3d.x u) (- Vec3d.x f) 0
              (Vec3d.y s) (Vec3d.y u) (- Vec3d.y f) 0
              (Vec3d.z s) (Vec3d.z u) (- Vec3d.z f) 0
              0 0 0 1)
    n.

Definition setAltAzVisionDirection (_pos : Vec3d) (n : t) : t :=
  let n := set_altAzVisionDirection _pos n in
  let n :=
    set_earthEquVisionDirection
      (altAzToEquinoxEqu n (altAzVisionDirection n)) n in
  let n :=
    set_J2000EquVisionDirection
      (matEquinoxEquToJ2000 n *v earthEquVisionDirection n) n in
  updateModelViewMat n.

Definition setEquinoxEquVisionDirection (_pos : Vec3d) (n : t) : t :=
  let n := set_earthEquVisionDirection _pos n in
  let n :=
    set_J2000EquVisionDirection
      (matEquinoxEquToJ2000 n *v earthEquVisionDirection n) n in
  let n :=
    set_altAzVisionDirection
      (equinoxEquToAltAz n (earthEquVisionDirection n)) n in
  updateModelViewMat n.

Definition setJ2000EquVisionDirection (_pos : Vec3d) (n : t) : t :=
  let n := set_J2000EquVisionDirection _pos n in
  let n :=
    set_earthEquVisionDirection
      (matJ2000ToEquinoxEqu n *v J2000EquVisionDirection n) n in
  let n :=
    set_altAzVisionDirection
      (equinoxEquToAltAz n (earthEquVisionDirection n)) n in
  updateModelViewMat n.

(** *** Increment time *)

(** [objmgr->getWasSelected() &&
     objmgr->getSelectedObject()[0].data() == position->getHomePlanet()]:
    the first selected object is read only when there is one. *)
Definition homePlanet_is_selected (n : t) (w : Collaborators.t Planet)
  : bool :=
  Collaborators.getWasSelected w
  && match Collaborators.selectedObject w with
     | o :: _ =>
         Collaborators.same_object o (StelObserver.getHomePlanet (position n))
     | [] => false
     end.

(** The body of [if (position->isObserverLifeOver())] in [updateTime]. *)
Definition replace_dead_observer
  (s : t * Collaborators.t Planet) : t * Collaborators.t Planet :=
  let n := fst s in
  let w := snd s in
  let w :=
    if homePlanet_is_selected n w then Collaborators.unSelect w else w in
  let newObs := StelObserver.getNextObserver (position n) in
  (set_position newObs n, w).

(** The two guarded assignments of [updateTime], under the comment
    "Fix time limits to -100000 to +100000 to prevent bugs". *)
Definition fix_time_limits (n : t) : t :=
  let n := if JDay n >? 38245309.499988
           then set_JDay 38245309.499988 n else n in
  let n := if JDay n <? -34803211.500012
           then set_JDay (-34803211.500012) n else n in
  n.

Definition updateTime (deltaTime : R)
  (n : t) (w : Collaborators.t Planet) : t * Collaborators.t Planet :=
  let n := set_JDay (JDay n + timeSpeed n * deltaTime) n in
  let n := fix_time_limits n in
  let s :=
    if StelObserver.isObserverLifeOver (position n)
    then replace_dead_observer (n, w)
    else (n, w) in
  let s := position_update deltaTime s in
  (* Position of sun and all the satellites (ie planets) *)
  (fst s,
   Collaborators.record
     (Collaborators.computePositions_called
        (getJDay (fst s))
        (Planet.getHeliocentricEclipticPos
           (StelObserver.getHomePlanet (position (fst s)))))
     (snd s)).

(** *** Transformation matrices *)

Definition updateTransformMatrices (n : t) : t :=
  let matAltAzToEquinoxEqu' :=
    StelObserver.getRotAltAzToEquatorial (JDay n) (position n) in
  let matEquinoxEquToAltAz' := Mat4d.transpose matAltAzToEquinoxEqu' in
  let matEquinoxEquToJ2000' :=
    matVsop87ToJ2000 *m StelObserver.getRotEquatorialToVsop87 (position n) in
  let matJ2000ToEquinoxEqu' := Mat4d.transpose matEquinoxEquToJ2000' in
  let matJ2000ToAltAz' := matEquinoxEquToAltAz' *m matJ2000ToEquinoxEqu' in
  let matHeliocentricEclipticToEquinoxEqu' :=
    matJ2000ToEquinoxEqu' *m matVsop87ToJ2000
    *m Mat4d.translation
         (Vec3d.neg (StelObserver.getCenterVsop87Pos (position n))) in
  (* These two next have to take into account the position of the observer
     on the earth *)
  let tmp :=
    matJ2000ToVsop87 *m matEquinoxEquToJ2000' *m matAltAzToEquinoxEqu' in
  let matAltAzToHeliocentricEcliptic' :=
    Mat4d.translation (StelObserver.getCenterVsop87Pos (position n)) *m tmp
    *m Mat4d.translation
         (Vec3d.mk 0 0 (StelObserver.getDistanceFromCenter (position n))) in
  let matHeliocentricEclipticToAltAz' :=
    Mat4d.translation
      (Vec3d.mk 0 0 (- StelObserver.getDistanceFromCenter (position n)))
    *m Mat4d.transpose tmp
    *m Mat4d.translation
         (Vec3d.neg (StelObserver.getCenterVsop87Pos (position n))) in
  mk (timeSpeed n) (JDay n) (position n)
     (altAzVisionDirection n) (earthEquVisionDirection n)
     (J2000EquVisionDirection n) (mountMode n)
     matAltAzToEquinoxEqu' matEquinoxEquToAltAz'
     matEquinoxEquToJ2000' matJ2000ToEquinoxEqu' matJ2000ToAltAz'
     matHeliocentricEclipticToEquinoxEqu'
     matAltAzToHeliocentricEcliptic' matHeliocentricEclipticToAltAz'
     (matAltAzModelView n).

(** Return the observer heliocentric position. *)
Definition getObserverHeliocentricEclipticPos (n : t) : Vec3d :=
  Vec3d.mk (Mat4d.r12 (matAltAzToHeliocentricEcliptic n))
           (Mat4d.r13 (matAltAzToHeliocentricEcliptic n))
           (Mat4d.r14 (matAltAzToHeliocentricEcliptic n)).

(** *** Move to the selected planet *)

(** The default values of the two durations of [moveObserverTo] are
    declared in StelNavigator.hpp, not in the translated file: they are
    parameters. *)
Variable default_duration : R.
Variable default_durationIfPlanetChange : R.

(** [StelNavigator::moveObserverToSelected].  The boolean is the tracking
    flag of the movement manager, as [setFlagTracking(false)] leaves it. *)
Definition moveObserverToSelected (n : t) (w : Collaborators.t Planet)
  : t * Collaborators.t Planet * bool :=
  let s :=
    if Collaborators.getWasSelected w
    then
      match Collaborators.selectedObject w with
      | o :: _ =>
          match Collaborators.as_Planet o with
          | Some pl =>
              (* We need to move to the selected planet. Try to generate a
                 location from the current one *)
              let loc := getCurrentLocation n in
              let loc :=
                StelLocation.mk
                  (StelLocation.name loc) (StelLocation.state loc)
                  (Planet.getEnglishName pl)
                  (StelLocation.longitude loc) (StelLocation.latitude loc)
                  (StelLocation.altitude loc) in
              let loc :=
                StelLocation.mk
                  "-" (StelLocation.state loc) (StelLocation.planetName loc)
                  (StelLocation.longitude loc) (StelLocation.latitude loc)
                  (StelLocation.altitude loc) in
              let loc :=
                StelLocation.mk
                  (StelLocation.name loc) "" (StelLocation.planetName loc)
                  (StelLocation.longitude loc) (StelLocation.latitude loc)
                  (StelLocation.altitude loc) in
              moveObserverTo loc default_duration
                default_durationIfPlanetChange n w
          | None => (n, w)
          end
      | [] => (n, w)
      end
    else (n, w) in
  (s, false).

End Model.

Arguments t Observer : clear implicits.

End StelNavigator.


(** ** The derivation of section 4.4, as the specification words it

    Each matrix is a function of the Julian Day and of the observer alone.
    [J2000ToVSOP87] is the fixed constant of the source. *)
Module TransformSpec.

Section Derivation.

Context {Planet Observer : Type} {OA : StelObserver.API Planet Observer}.

Variable jd : R.
Variable observer : Observer.

Definition J2000ToVSOP87 : Mat4d := StelNavigator.matJ2000ToVsop87.
Definition VSOP87ToJ2000 : Mat4d := Mat4d.transpose J2000ToVSOP87.

Definition altAzToEquOfDate : Mat4d :=
  StelObserver.getRotAltAzToEquatorial jd observer.

Definition equOfDateToAltAz : Mat4d :=
  Mat4d.transpose altAzToEquOfDate.

Definition equOfDateToJ2000 : Mat4d :=
  Mat4d.transpose J2000ToVSOP87
  *m StelObserver.getRotEquatorialToVsop87 observer.

Definition J2000ToEquOfDate : Mat4d :=
  Mat4d.transpose equOfDateToJ2000.

Definition J2000ToAltAz : Mat4d :=
  equOfDateToAltAz *m J2000ToEquOfDate.

Definition helioEclipticToEquOfDate : Mat4d :=
  J2000ToEquOfDate *m VSOP87ToJ2000
  *m Mat4d.translation (Vec3d.neg (StelObserver.getCenterVsop87Pos observer)).

Definition tmp : Mat4d :=
  J2000ToVSOP87 *m equOfDateToJ2000 *m altAzToEquOfDate.

Definition altAzToHelioEcliptic : Mat4d :=
  Mat4d.translation (StelObserver.getCenterVsop87Pos observer) *m tmp
  *m Mat4d.translation
       (Vec3d.mk 0 0 (StelObserver.getDistanceFromCenter observer)).

Definition helioEclipticToAltAz : Mat4d :=
  Mat4d.translation
    (Vec3d.mk 0 0 (- StelObserver.getDistanceFromCenter observer))
  *m Mat4d.transpose tmp
  *m Mat4d.translation (Vec3d.neg (StelObserver.getCenterVsop87Pos observer)).

End Derivation.

End TransformSpec.

(** The clamp of section 3, as the specification words it: a Julian Day
    brought back into the supported range. *)
Definition clampJDay (jd : R) : R :=
  Rmax StelNavigator.JDay_min (Rmin jd StelNavigator.JDay_max).

(** ** A concrete sky

    Three bodies and the two observers of section 4.2, to run the navigator
    on. *)
Module Sky.

Inductive Body : Type :=
| Earth
| Mars
| SolarSystemObserver.

Definition Body_eq_dec (p q : Body) : {p = q} + {p <> q}.
Proof. decide equality. Defined.

#[global] Instance Body_API : Planet.API Body := {|
  Planet.eq_dec := Body_eq_dec;
  Planet.getEnglishName := fun p =>
    match p with
    | Earth => "Earth"%string
    | Mars => "Mars"%string
    | SolarSystemObserver => "Solar System StelObserver"%string
    end;
  Planet.getSiderealDay := fun p =>
    match p with
    | Earth => 0.99727
    | Mars => 1.02595675
    | SolarSystemObserver => 1
    end;
  Planet.getHeliocentricEclipticPos := fun p =>
    match p with
    | Earth => Vec3d.mk 1 0 0
    | Mars => Vec3d.mk 0 1.5 0
    | SolarSystemObserver => Vec3d.mk 0 0 0
    end
|}.

Definition bodyOfName (s : string) : Body :=
  if String.eqb s "Earth" then Earth
  else if String.eqb s "Mars" then Mars
  else SolarSystemObserver.

(** Modelled from the spec: the observer variants of section 4.2, a static
    one and one in transit that has spent [elapsed] of its [duration]. *)
Inductive Obs : Type :=
| Static (location : StelLocation)
| Transitioning (fromLocation toLocation : StelLocation)
                (duration elapsed : R).

(** Modelled from the spec: linear interpolation of the numeric fields by
    the clamped progress; the identifier fields are the origin's up to the
    midpoint and the destination's after it (section 4.2). *)
Definition interpolate (a b : StelLocation) (k : R) : StelLocation :=
  let k := Rmax 0 (Rmin k 1) in
  let ids := if k >? 1 / 2 then b else a in
  StelLocation.mk
    (StelLocation.name ids) (StelLocation.state ids)
    (StelLocation.planetName ids)
    (StelLocation.longitude a
     + k * (StelLocation.longitude b - StelLocation.longitude a))
    (StelLocation.latitude a
     + k * (StelLocation.latitude b - StelLocation.latitude a))
    (StelLocation.altitude a
     + k * (StelLocation.altitude b - StelLocation.altitude a)).

Definition currentLocation (o : Obs) : StelLocation :=
  match o with
  | Static l => l
  | Transitioning a b d e => interpolate a b (e / d)
  end.

Definition homePlanet (o : Obs) : Body :=
  bodyOfName (StelLocation.planetName (currentLocation o)).

#[global] Instance Obs_API : StelObserver.API Body Obs := {|
  StelObserver.new_StelObserver := Static;
  StelObserver.new_SpaceShipObserver := fun a b d => Transitioning a b d 0;
  StelObserver.getCurrentLocation := currentLocation;
  StelObserver.getHomePlanet := homePlanet;
  StelObserver.isObserverLifeOver := fun o =>
    match o with
    | Static _ => false
    | Transitioning _ _ d e => e >=? d
    end;
  StelObserver.getNextObserver := fun o =>
    match o with
    | Static l => Static l
    | Transitioning _ b _ _ => Static b
    end;
  StelObserver.update := fun dt o =>
    match o with
    | Static l => Static l
    | Transitioning a b d e => Transitioning a b d (e + dt)
    end;
  StelObserver.getRotAltAzToEquatorial := fun jd o =>
    Mat4d.zrotation (2 * PI * (jd / Planet.getSiderealDay (homePlanet o)));
  StelObserver.getRotEquatorialToVsop87 := fun _ => Mat4d.identity;
  StelObserver.getCenterVsop87Pos := fun o =>
    Planet.getHeliocentricEclipticPos (homePlanet o);
  StelObserver.getDistanceFromCenter := fun o =>
    StelLocation.altitude (currentLocation o)
|}.

(** One second, in days. *)
Definition JD_SECOND : R := 1 / 86400.

(** A setter that stores the Julian Day it is given. *)
Definition setJDay (jd : R) (n : StelNavigator.t Obs) : StelNavigator.t Obs :=
  StelNavigator.set_JDay jd n.

Definition Paris : StelLocation :=
  StelLocation.mk "Paris" "France" "Earth" 2.35 48.85 0.

Definition Greenwich : StelLocation :=
  StelLocation.mk "Greenwich" "United Kingdom" "Earth" 0 51.48 0.

Definition OlympusMons : StelLocation :=
  StelLocation.mk "Olympus Mons" "" "Mars" (-133.8) 18.65 0.

Definition Barycenter : StelLocation :=
  StelLocation.mk "-" "" "Solar System StelObserver" 0 0 0.

(** A navigator at [location], at Julian Day [jd], running at [rate]; the
    vision directions are those of the constructor, the matrices are
    derived by [updateTransformMatrices]. *)
Definition navigatorAt (location : StelLocation) (jd rate : R)
  : StelNavigator.t Obs :=
  StelNavigator.updateTransformMatrices
    (StelNavigator.mk rate jd (Static location)
       (Vec3d.mk 1 0 0) (Vec3d.mk 1 0 0) (Vec3d.mk 1 0 0)
       StelNavigator.MountAltAzimuthal
       Mat4d.identity Mat4d.identity Mat4d.identity Mat4d.identity
       Mat4d.identity Mat4d.identity Mat4d.identity Mat4d.identity
       Mat4d.identity).

(** Nothing selected, nothing called yet. *)
Definition quiet : Collaborators.t Body := Collaborators.mk [] [].

End Sky.

(** ** Sequences of calls *)

(** The two keys of the coarse time-rate control, and the two of the fine
    one. *)
Inductive RateKey : Type :=
| Faster
| Slower.

Definition pressRateKey {Observer : Type} (JD_SECOND : R) (k : RateKey)
  (n : StelNavigator.t Observer) : StelNavigator.t Observer :=
  match k with
  | Faster => StelNavigator.increaseTimeSpeed JD_SECOND n
  | Slower => StelNavigator.decreaseTimeSpeed JD_SECOND n
  end.

Definition pressRateKeyLess {Observer : Type} (JD_SECOND : R) (k : RateKey)
  (n : StelNavigator.t Observer) : StelNavigator.t Observer :=
  match k with
  | Faster => StelNavigator.increaseTimeSpeedLess JD_SECOND n
  | Slower => StelNavigator.decreaseTimeSpeedLess JD_SECOND n
  end.

(** The keys pressed one after the other, first key first. *)
Definition pressRateKeys {Observer : Type} (JD_SECOND : R)
  (ks : list RateKey) (n : StelNavigator.t Observer)
  : StelNavigator.t Observer :=
  fold_left (fun m k => pressRateKey JD_SECOND k m) ks n.

Definition pressRateKeysLess {Observer : Type} (JD_SECOND : R)
  (ks : list RateKey) (n : StelNavigator.t Observer)
  : StelNavigator.t Observer :=
  fold_left (fun m k => pressRateKeyLess JD_SECOND k m) ks n.

(** The rates [0], [JD_SECOND * base ^ k] and [- JD_SECOND * base ^ k]. *)
Definition on_ladder (base JD_SECOND s : R) : Prop :=
  s = 0 \/
  exists k : nat,
    s = JD_SECOND * base ^ k \/ s = - (JD_SECOND * base ^ k).

(** [getIsTimeNow] polled once per clock reading, the navigator unchanged
    in between: the answers, and the statics after the last poll. *)
Fixpoint pollIsTimeNow {Observer : Type} (JD_SECOND : R) (clocks : list R)
  (n : StelNavigator.t Observer)
  (statics : option StelNavigator.IsTimeNowStatics)
  : list bool * option StelNavigator.IsTimeNowStatics :=
  match clocks with
  | [] => ([], statics)
  | now :: later =>
      let r := StelNavigator.getIsTimeNow JD_SECOND now n statics in
      let rs := pollIsTimeNow JD_SECOND later n (Some (snd r)) in
      (fst r :: fst rs, snd rs)
  end.

(** Scalar product and difference of 3-vectors. *)
Definition Vec3d_dot (a b : Vec3d) : R :=
  Vec3d.x a * Vec3d.x b + Vec3d.y a * Vec3d.y b + Vec3d.z a * Vec3d.z b.

Definition Vec3d_minus (a b : Vec3d) : Vec3d :=
  Vec3d.mk (Vec3d.x a - Vec3d.x b) (Vec3d.y a - Vec3d.y b)
           (Vec3d.z a - Vec3d.z b).

(** Determinant of the rotation part of a matrix (its first three rows and
    columns): 1 for a rotation, -1 for a reflection. *)
Definition Mat4d_det3 (m : Mat4d) : R :=
  Mat4d.r0 m * (Mat4d.r5 m * Mat4d.r10 m - Mat4d.r9 m * Mat4d.r6 m)
  - Mat4d.r4 m * (Mat4d.r1 m * Mat4d.r10 m - Mat4d.r9 m * Mat4d.r2 m)
  + Mat4d.r8 m * (Mat4d.r1 m * Mat4d.r6 m - Mat4d.r5 m * Mat4d.r2 m).

(** An observatory above the ground: the observer is not at the centre of
    its home planet. *)
Definition MaunaKea : StelLocation :=
  StelLocation.mk "Mauna Kea" "Hawaii" "Earth" (-155.47) 19.82 4205.


(** ** The Julian Day and the time rate on IEEE doubles

    The statements of the source that decide the bounds of the Julian Day,
    with [double] as the binary64 floats of [PrimFloat]: a product that
    overflows is an infinity, [infinity * 0] is NaN, and every comparison
    with NaN is false.  A decimal literal stands for the nearest double, as
    it does in C++. *)
Module Binary64.
Import PrimFloat.
Local Set Warnings "-inexact-float".

Definition double : Set := float.

(** Modelled from the spec: [JD_SECOND], a macro of StelUtils.hpp, is the
    rate of real time in Julian Days per second, one solar day per 86400
    seconds. *)
Definition JD_SECOND : double := (1 / 86400)%float.

(** The two bounds of [updateTime]. *)
Definition JDay_max : double := 38245309.499988%float.
Definition JDay_min : double := (-34803211.500012)%float.

(** The four functions of the time rate: the rate each passes to
    [setTimeRate], from the rate [s] that [getTimeRate] returns. *)
Definition increaseTimeSpeed (JD_SECOND s : double) : double :=
  (if JD_SECOND <=? s then s * 10
   else if s <? - JD_SECOND then s / 10
   else if (0 <=? s) && (s <? JD_SECOND) then JD_SECOND
   else if (- JD_SECOND <=? s) && (s <? 0) then 0
   else s)%float.

Definition decreaseTimeSpeed (JD_SECOND s : double) : double :=
  (if JD_SECOND <? s then s / 10
   else if s <=? - JD_SECOND then s * 10
   else if (- JD_SECOND <? s) && (s <=? 0) then - JD_SECOND
   else if (0 <? s) && (s <=? JD_SECOND) then 0
   else s)%float.

Definition increaseTimeSpeedLess (JD_SECOND s : double) : double :=
  (if JD_SECOND <=? s then s * 2
   else if s <? - JD_SECOND then s / 2
   else if (0 <=? s) && (s <? JD_SECOND) then JD_SECOND
   else if (- JD_SECOND <=? s) && (s <? 0) then 0
   else s)%float.

Definition decreaseTimeSpeedLess (JD_SECOND s : double) : double :=
  (if JD_SECOND <? s then s / 2
   else if s <=? - JD_SECOND then s * 2
   else if (- JD_SECOND <? s) && (s <=? 0) then - JD_SECOND
   else if (0 <? s) && (s <=? JD_SECOND) then 0
   else s)%float.

(** [updateTime]: the Julian Day it leaves (the statements after the two
    guards do not assign [JDay]). *)
Definition updateTime_JDay (JDay timeSpeed deltaTime : double) : double :=
  let JDay := (JDay + timeSpeed * deltaTime)%float in
  let JDay := if (38245309.499988 <? JDay)%float
              then 38245309.499988%float else JDay in
  let JDay := if (JDay <? -34803211.500012)%float
              then (-34803211.500012)%float else JDay in
  JDay.

(** The Julian Day is within the two bounds. *)
Definition in_range (jd : double) : bool :=
  ((JDay_min <=? jd) && (jd <=? JDay_max))%float.

End Binary64.


(** * Properties *)

(** Case analysis on every comparison of doubles in sight. *)
Ltac double_cases :=
  unfold Double.gtb, Double.geb, Double.ltb, Double.leb, Double.fabs in *;
  repeat match goal with
         | |- context [Rlt_dec ?a ?b] => destruct (Rlt_dec a b)
         | |- context [Rle_dec ?a ?b] => destruct (Rle_dec a b)
         | H : context [Rlt_dec ?a ?b] |- _ => destruct (Rlt_dec a b)
         | H : context [Rle_dec ?a ?b] |- _ => destruct (Rle_dec a b)
         end;
  simpl in *.

Lemma ltb_true (a b : R) : a < b -> (a <? b) = true.
Proof. intros H. double_cases; [reflexivity | lra]. Qed.

Lemma ltb_false (a b : R) : b <= a -> (a <? b) = false.
Proof. intros H. double_cases; [lra | reflexivity]. Qed.

Lemma leb_true (a b : R) : a <= b -> (a <=? b) = true.
Proof. intros H. double_cases; [reflexivity | lra]. Qed.

Lemma leb_false (a b : R) : b < a -> (a <=? b) = false.
Proof. intros H. double_cases; [lra | reflexivity]. Qed.

Lemma JDay_min_lt_max : StelNavigator.JDay_min < StelNavigator.JDay_max.
Proof. unfold StelNavigator.JDay_min, StelNavigator.JDay_max. lra. Qed.

Section TransformMatrices.

Context {Planet Observer : Type}.
Context {PA : Planet.API Planet} {OA : StelObserver.API Planet Observer}.

Implicit Type n : StelNavigator.t Observer.

(** C2.  One call to [updateTransformMatrices] sets each derived matrix to
    the composition section 4.4 prescribes, computed from the current Julian
    Day and observer alone: [altAzToEquOfDate] from the observer,
    [equOfDateToJ2000 = VSOP87ToJ2000 * rotationEquatorialToEcliptic],
    [J2000ToAltAz = equOfDateToAltAz * J2000ToEquOfDate],
    [helioEclipticToEquOfDate =
       J2000ToEquOfDate * VSOP87ToJ2000 * translate(-centerPos)],
    and the two alt-az/heliocentric matrices from [tmp] with the stated
    translations.  Nothing of the previous matrices enters the result, and
    the other member variables are left as they were. *)
Theorem updateTransformMatrices_composition n :
  let n' := StelNavigator.updateTransformMatrices n in
  let jd := StelNavigator.JDay n in
  let observer := StelNavigator.position n in
  StelNavigator.matAltAzToEquinoxEqu n'
  = TransformSpec.altAzToEquOfDate jd observer /\
  StelNavigator.matEquinoxEquToAltAz n'
  = TransformSpec.equOfDateToAltAz jd observer /\
  StelNavigator.matEquinoxEquToJ2000 n'
  = TransformSpec.equOfDateToJ2000 observer /\
  StelNavigator.matEquinoxEquToJ2000 n'
  = TransformSpec.VSOP87ToJ2000
    *m StelObserver.getRotEquatorialToVsop87 observer /\
  StelNavigator.matJ2000ToEquinoxEqu n'
  = TransformSpec.J2000ToEquOfDate observer /\
  StelNavigator.matJ2000ToAltAz n'
  = TransformSpec.J2000ToAltAz jd observer /\
  StelNavigator.matHeliocentricEclipticToEquinoxEqu n'
  = TransformSpec.helioEclipticToEquOfDate observer /\
  StelNavigator.matAltAzToHeliocentricEcliptic n'
  = TransformSpec.altAzToHelioEcliptic jd observer /\
  StelNavigator.matHeliocentricEclipticToAltAz n'
  = TransformSpec.helioEclipticToAltAz jd observer /\
  StelNavigator.JDay n' = jd /\
  StelNavigator.position n' = observer /\
  StelNavigator.timeSpeed n' = StelNavigator.timeSpeed n /\
  StelNavigator.altAzVisionDirection n'
  = StelNavigator.altAzVisionDirection n /\
  StelNavigator.earthEquVisionDirection n'
  = StelNavigator.earthEquVisionDirection n /\
  StelNavigator.J2000EquVisionDirection n'
  = StelNavigator.J2000EquVisionDirection n /\
  StelNavigator.mountMode n' = StelNavigator.mountMode n /\
  StelNavigator.matAltAzModelView n' = StelNavigator.matAltAzModelView n.
Proof.
  cbv zeta.
  unfold StelNavigator.updateTransformMatrices; cbn [StelNavigator.matAltAzToEquinoxEqu
    StelNavigator.matEquinoxEquToAltAz StelNavigator.matEquinoxEquToJ2000
    StelNavigator.matJ2000ToEquinoxEqu StelNavigator.matJ2000ToAltAz
    StelNavigator.matHeliocentricEclipticToEquinoxEqu
    StelNavigator.matAltAzToHeliocentricEcliptic
    StelNavigator.matHeliocentricEclipticToAltAz
    StelNavigator.JDay StelNavigator.position StelNavigator.timeSpeed
    StelNavigator.altAzVisionDirection StelNavigator.earthEquVisionDirection
    StelNavigator.J2000EquVisionDirection StelNavigator.mountMode
    StelNavigator.matAltAzModelView].
  unfold TransformSpec.altAzToHelioEcliptic, TransformSpec.helioEclipticToAltAz,
    TransformSpec.tmp, TransformSpec.helioEclipticToEquOfDate,
    TransformSpec.J2000ToAltAz, TransformSpec.J2000ToEquOfDate,
    TransformSpec.equOfDateToJ2000, TransformSpec.equOfDateToAltAz,
    TransformSpec.altAzToEquOfDate, TransformSpec.VSOP87ToJ2000,
    TransformSpec.J2000ToVSOP87, StelNavigator.matVsop87ToJ2000.
  repeat (split; [reflexivity | ]).
  reflexivity.
Qed.

(** C3.  After every call to [updateTransformMatrices], whatever the Julian
    Day, [matEquinoxEquToAltAz] is the transpose of [matAltAzToEquinoxEqu]
    and [matJ2000ToEquinoxEqu] is the transpose of [matEquinoxEquToJ2000],
    exactly: each inverse is obtained as a transpose. *)
Theorem updateTransformMatrices_transposes n :
  let n' := StelNavigator.updateTransformMatrices n in
  StelNavigator.matEquinoxEquToAltAz n'
  = Mat4d.transpose (StelNavigator.matAltAzToEquinoxEqu n') /\
  StelNavigator.matJ2000ToEquinoxEqu n'
  = Mat4d.transpose (StelNavigator.matEquinoxEquToJ2000 n').
Proof.
  split; reflexivity.
Qed.

End TransformMatrices.

Section VisionDirection.

Context {Observer : Type}.

Implicit Type n : StelNavigator.t Observer.

Ltac mat_unfold :=
  unfold Mat4d.is_rotation, Mat4d.mul, Mat4d.transpose, Mat4d.identity,
    Mat4d.mulv;
  cbn [Mat4d.r0 Mat4d.r1 Mat4d.r2 Mat4d.r3 Mat4d.r4 Mat4d.r5 Mat4d.r6
       Mat4d.r7 Mat4d.r8 Mat4d.r9 Mat4d.r10 Mat4d.r11 Mat4d.r12 Mat4d.r13
       Mat4d.r14 Mat4d.r15 Vec3d.x Vec3d.y Vec3d.z].

(** The transpose of a rotation undoes it, on every vector. *)
Lemma rotation_transpose_mulv (m : Mat4d) (v : Vec3d) :
  Mat4d.is_rotation m -> Mat4d.transpose m *v (m *v v) = v.
Proof.
  destruct m as [m0 m1 m2 m3 m4 m5 m6 m7 m8 m9 m10 m11 m12 m13 m14 m15].
  destruct v as [vx vy vz].
  mat_unfold.
  intros (H12 & H13 & H14 & H3 & H7 & H11 & H15 & Hm).
  subst. injection Hm as E0 E1 E2 _ E4 E5 E6 _ E8 E9 E10 _ _ _ _ _.
  f_equal.
  - transitivity ((m0 * m0 + m1 * m1 + m2 * m2 + 0 * 0) * vx
                  + (m0 * m4 + m1 * m5 + m2 * m6 + 0 * 0) * vy
                  + (m0 * m8 + m1 * m9 + m2 * m10 + 0 * 0) * vz);
      [ring | rewrite E0, E4, E8; ring].
  - transitivity ((m4 * m0 + m5 * m1 + m6 * m2 + 0 * 0) * vx
                  + (m4 * m4 + m5 * m5 + m6 * m6 + 0 * 0) * vy
                  + (m4 * m8 + m5 * m9 + m6 * m10 + 0 * 0) * vz);
      [ring | rewrite E1, E5, E9; ring].
  - transitivity ((m8 * m0 + m9 * m1 + m10 * m2 + 0 * 0) * vx
                  + (m8 * m4 + m9 * m5 + m10 * m6 + 0 * 0) * vy
                  + (m8 * m8 + m9 * m9 + m10 * m10 + 0 * 0) * vz);
      [ring | rewrite E2, E6, E10; ring].
Qed.

(** [normalize] leaves a vector of length one as it is. *)
Lemma normalize_unit (v : Vec3d) :
  Vec3d.lengthSquared v = 1 -> Vec3d.normalize v = v.
Proof.
  intros H. unfold Vec3d.normalize. rewrite H, sqrt_1.
  destruct v as [vx vy vz]. cbn [Vec3d.x Vec3d.y Vec3d.z].
  f_equal; field.
Qed.

(** The view-matrix build writes [matAltAzModelView] only. *)
Lemma updateModelViewMat_vision n :
  StelNavigator.altAzVisionDirection (StelNavigator.updateModelViewMat n)
  = StelNavigator.altAzVisionDirection n /\
  StelNavigator.earthEquVisionDirection (StelNavigator.updateModelViewMat n)
  = StelNavigator.earthEquVisionDirection n /\
  StelNavigator.J2000EquVisionDirection (StelNavigator.updateModelViewMat n)
  = StelNavigator.J2000EquVisionDirection n.
Proof.
  repeat split.
Qed.

(** C10.  Each vision-direction setter stores the vector it is given as it
    is, whatever its length: [setAltAzVisionDirection v] leaves the alt-az
    direction equal to [v], the equatorial-of-date one equal to
    [matAltAzToEquinoxEqu * v] and the J2000 one equal to
    [matEquinoxEquToJ2000 * (matAltAzToEquinoxEqu * v)]; likewise for the
    two other setters.  The only normalised vector is the view direction of
    the view matrix: the entries [-f] of [matAltAzModelView] are
    [- normalize v]. *)
Theorem vision_setters_store_unnormalized (v : Vec3d) n :
  let a := StelNavigator.setAltAzVisionDirection v n in
  let e := StelNavigator.setEquinoxEquVisionDirection v n in
  let j := StelNavigator.setJ2000EquVisionDirection v n in
  (StelNavigator.altAzVisionDirection a = v /\
   StelNavigator.earthEquVisionDirection a
   = StelNavigator.matAltAzToEquinoxEqu n *v v /\
   StelNavigator.J2000EquVisionDirection a
   = StelNavigator.matEquinoxEquToJ2000 n
     *v (StelNavigator.matAltAzToEquinoxEqu n *v v)) /\
  (StelNavigator.earthEquVisionDirection e = v /\
   StelNavigator.J2000EquVisionDirection e
   = StelNavigator.matEquinoxEquToJ2000 n *v v /\
   StelNavigator.altAzVisionDirection e
   = StelNavigator.matEquinoxEquToAltAz n *v v) /\
  (StelNavigator.J2000EquVisionDirection j = v /\
   StelNavigator.earthEquVisionDirection j
   = StelNavigator.matJ2000ToEquinoxEqu n *v v /\
   StelNavigator.altAzVisionDirection j
   = StelNavigator.matEquinoxEquToAltAz n
     *v (StelNavigator.matJ2000ToEquinoxEqu n *v v)) /\
  (Mat4d.r2 (StelNavigator.matAltAzModelView a)
   = - Vec3d.x (Vec3d.normalize v) /\
   Mat4d.r6 (StelNavigator.matAltAzModelView a)
   = - Vec3d.y (Vec3d.normalize v) /\
   Mat4d.r10 (StelNavigator.matAltAzModelView a)
   = - Vec3d.z (Vec3d.normalize v)).
Proof.
  cbv zeta.
  unfold StelNavigator.setAltAzVisionDirection,
    StelNavigator.setEquinoxEquVisionDirection,
    StelNavigator.setJ2000EquVisionDirection.
  cbv zeta.
  repeat split.
  all: unfold StelNavigator.updateModelViewMat; cbn;
    destruct (StelNavigator.mountMode n); reflexivity.
Qed.

(** C4, as the code has it.  When [matAltAzToEquinoxEqu] is a rotation and
    [matEquinoxEquToAltAz] is its transpose (what [updateTransformMatrices]
    establishes), calling [setAltAzVisionDirection v], reading the
    equatorial-of-date direction and converting it back to alt-az gives [v]
    itself, of whatever length; it is [normalize v] when [v] has length
    one. *)
Theorem setAltAzVisionDirection_roundtrip (v : Vec3d) n :
  Mat4d.is_rotation (StelNavigator.matAltAzToEquinoxEqu n) ->
  StelNavigator.matEquinoxEquToAltAz n
  = Mat4d.transpose (StelNavigator.matAltAzToEquinoxEqu n) ->
  let n' := StelNavigator.setAltAzVisionDirection v n in
  let back :=
    StelNavigator.equinoxEquToAltAz n'
      (StelNavigator.earthEquVisionDirection n') in
  back = v /\
  (Vec3d.lengthSquared v = 1 -> back = Vec3d.normalize v).
Proof.
  intros Hrot Htr n' back.
  assert (Hback : back = v).
  { subst back n'.
    unfold StelNavigator.equinoxEquToAltAz,
      StelNavigator.setAltAzVisionDirection,
      StelNavigator.updateModelViewMat, StelNavigator.altAzToEquinoxEqu.
    cbn [StelNavigator.matEquinoxEquToAltAz
         StelNavigator.earthEquVisionDirection
         StelNavigator.altAzVisionDirection
         StelNavigator.matAltAzToEquinoxEqu
         StelNavigator.set_matAltAzModelView
         StelNavigator.set_J2000EquVisionDirection
         StelNavigator.set_earthEquVisionDirection
         StelNavigator.set_altAzVisionDirection].
    rewrite Htr. apply rotation_transpose_mulv, Hrot. }
  split; [exact Hback | ].
  intros Hunit. rewrite Hback. symmetry. apply normalize_unit, Hunit.
Qed.

End VisionDirection.

Section TimeRate.

Context {Observer : Type}.

Variable JD_SECOND : R.

Implicit Type n : StelNavigator.t Observer.

Lemma increaseTimeSpeed_timeSpeed n :
  StelNavigator.timeSpeed (StelNavigator.increaseTimeSpeed JD_SECOND n)
  = let s := StelNavigator.timeSpeed n in
    if s >=? JD_SECOND then s * 10
    else if s <? - JD_SECOND then s / 10
    else if (s >=? 0) && (s <? JD_SECOND) then JD_SECOND
    else if (s >=? - JD_SECOND) && (s <? 0) then 0
    else s.
Proof. reflexivity. Qed.

Lemma decreaseTimeSpeed_timeSpeed n :
  StelNavigator.timeSpeed (StelNavigator.decreaseTimeSpeed JD_SECOND n)
  = let s := StelNavigator.timeSpeed n in
    if s >? JD_SECOND then s / 10
    else if s <=? - JD_SECOND then s * 10
    else if (s >? - JD_SECOND) && (s <=? 0) then - JD_SECOND
    else if (s >? 0) && (s <=? JD_SECOND) then 0
    else s.
Proof. reflexivity. Qed.

(** C5.  With [JD_SECOND] positive: from rate 0, one [increaseTimeSpeed]
    gives [JD_SECOND] and a second gives [10 * JD_SECOND]; from rate 0, one
    [decreaseTimeSpeed] gives [- JD_SECOND] and a second gives
    [- 10 * JD_SECOND]; and for every rate [s], [increaseTimeSpeed]
    multiplies by 10 when [s >= JD_SECOND], divides by 10 when
    [s < - JD_SECOND], snaps [0 <= s < JD_SECOND] to [JD_SECOND] and
    [- JD_SECOND <= s < 0] to 0. *)
Theorem timeSpeed_stepping n :
  0 < JD_SECOND ->
  let inc := StelNavigator.increaseTimeSpeed JD_SECOND in
  let dec := StelNavigator.decreaseTimeSpeed JD_SECOND in
  let s := StelNavigator.timeSpeed n in
  (s = 0 ->
   StelNavigator.timeSpeed (inc n) = JD_SECOND /\
   StelNavigator.timeSpeed (inc (inc n)) = 10 * JD_SECOND) /\
  (s = 0 ->
   StelNavigator.timeSpeed (dec n) = - JD_SECOND /\
   StelNavigator.timeSpeed (dec (dec n)) = - 10 * JD_SECOND) /\
  (JD_SECOND <= s -> StelNavigator.timeSpeed (inc n) = s * 10) /\
  (s < - JD_SECOND -> StelNavigator.timeSpeed (inc n) = s / 10) /\
  (0 <= s < JD_SECOND -> StelNavigator.timeSpeed (inc n) = JD_SECOND) /\
  (- JD_SECOND <= s < 0 -> StelNavigator.timeSpeed (inc n) = 0).
Proof.
  intros Hpos inc dec s. subst inc dec s.
  repeat split; intros;
    rewrite ?increaseTimeSpeed_timeSpeed, ?decreaseTimeSpeed_timeSpeed;
    cbv zeta;
    rewrite ?increaseTimeSpeed_timeSpeed, ?decreaseTimeSpeed_timeSpeed;
    cbv zeta.
  all: double_cases; try lra.
Qed.

End TimeRate.

Section TimeAdvance.

Context {Planet Observer : Type}.
Context {PA : Planet.API Planet} {OA : StelObserver.API Planet Observer}.

Implicit Type n : StelNavigator.t Observer.
Implicit Type w : Collaborators.t Planet.

Lemma clampJDay_bounds (jd : R) :
  StelNavigator.JDay_min <= clampJDay jd <= StelNavigator.JDay_max /\
  (StelNavigator.JDay_max < jd -> clampJDay jd = StelNavigator.JDay_max) /\
  (jd < StelNavigator.JDay_min -> clampJDay jd = StelNavigator.JDay_min) /\
  (StelNavigator.JDay_min <= jd <= StelNavigator.JDay_max ->
   clampJDay jd = jd).
Proof.
  pose proof JDay_min_lt_max as Hlt.
  unfold clampJDay, Rmin.
  destruct (Rle_dec jd StelNavigator.JDay_max);
    unfold Rmax;
    match goal with
    | |- context [Rle_dec ?a ?b] => destruct (Rle_dec a b)
    end; repeat split; intros; lra.
Qed.

(** The two guarded assignments amount to the clamp of the Julian Day, and
    touch nothing else. *)
Lemma fix_time_limits_clamp n :
  StelNavigator.fix_time_limits n
  = StelNavigator.set_JDay (clampJDay (StelNavigator.JDay n)) n.
Proof.
  destruct n as [ts jd pos aa ee jj mm m1 m2 m3 m4 m5 m6 m7 m8 mv].
  unfold StelNavigator.fix_time_limits, clampJDay, StelNavigator.JDay_min,
    StelNavigator.JDay_max, Rmax, Rmin, StelNavigator.set_JDay.
  cbn [StelNavigator.JDay]. unfold Double.gtb, Double.ltb.
  destruct (Rlt_dec 38245309.499988 jd) as [Hhi | Hhi];
    cbn [StelNavigator.JDay];
    match goal with
    | |- context [Rlt_dec ?a ?b] => destruct (Rlt_dec a b) as [Hlo | Hlo]
    end;
    cbn [StelNavigator.JDay StelNavigator.timeSpeed StelNavigator.position
      StelNavigator.altAzVisionDirection StelNavigator.earthEquVisionDirection
      StelNavigator.J2000EquVisionDirection StelNavigator.mountMode
      StelNavigator.matAltAzToEquinoxEqu StelNavigator.matEquinoxEquToAltAz
      StelNavigator.matEquinoxEquToJ2000 StelNavigator.matJ2000ToEquinoxEqu
      StelNavigator.matJ2000ToAltAz
      StelNavigator.matHeliocentricEclipticToEquinoxEqu
      StelNavigator.matAltAzToHeliocentricEcliptic
      StelNavigator.matHeliocentricEclipticToAltAz
      StelNavigator.matAltAzModelView];
    f_equal;
    destruct (Rle_dec jd 38245309.499988);
    match goal with
    | |- context [Rle_dec ?a ?b] => destruct (Rle_dec a b)
    end; lra.
Qed.

(** What one call to [updateTime] leaves behind: the navigator with the
    clamped Julian Day and the refreshed (possibly replaced) observer, and
    the calls it made, in order. *)
Lemma updateTime_fields (deltaTime : R) n w :
  let r := StelNavigator.updateTime deltaTime n w in
  let jd :=
    clampJDay (StelNavigator.JDay n + StelNavigator.timeSpeed n * deltaTime) in
  let over := StelObserver.isObserverLifeOver (StelNavigator.position n) in
  let observer :=
    if over then StelObserver.getNextObserver (StelNavigator.position n)
    else StelNavigator.position n in
  let unselect := over && StelNavigator.homePlanet_is_selected n w in
  fst r
  = StelNavigator.set_position (StelObserver.update deltaTime observer)
      (StelNavigator.set_JDay jd n) /\
  Collaborators.selectedObject (snd r)
  = (if unselect then [] else Collaborators.selectedObject w) /\
  Collaborators.calls (snd r)
  = Collaborators.calls w
    ++ (if unselect then [Collaborators.unSelect_called] else [])
    ++ [Collaborators.update_called deltaTime;
        Collaborators.computePositions_called jd
          (Planet.getHeliocentricEclipticPos
             (StelObserver.getHomePlanet
                (StelObserver.update deltaTime observer)))].
Proof.
  cbv zeta. unfold StelNavigator.updateTime. cbv zeta.
  rewrite fix_time_limits_clamp.
  cbn [StelNavigator.JDay StelNavigator.set_JDay StelNavigator.position].
  set (jd := clampJDay _).
  change (StelNavigator.set_JDay jd (StelNavigator.set_JDay _ n))
    with (StelNavigator.set_JDay jd n).
  unfold StelNavigator.position_update, StelNavigator.replace_dead_observer,
    StelNavigator.getJDay.
  change (StelNavigator.homePlanet_is_selected n w)
    with (StelNavigator.homePlanet_is_selected (StelNavigator.set_JDay jd n) w).
  destruct (StelObserver.isObserverLifeOver (StelNavigator.position n));
    cbv zeta; cbn [fst snd andb];
    [ destruct (StelNavigator.homePlanet_is_selected
                  (StelNavigator.set_JDay jd n) w) | ];
    unfold Collaborators.record, Collaborators.unSelect;
    cbn [fst snd Collaborators.selectedObject Collaborators.calls
         StelNavigator.position StelNavigator.set_position
         StelNavigator.JDay StelNavigator.set_JDay];
    rewrite <- ?app_assoc; cbn [app];
    (split; [ reflexivity | split; reflexivity ]).
Qed.


(** In exact arithmetic, where every Julian Day, rate and delta is a real
    number: after [updateTime] the Julian Day lies between -34803211.500012
    and 38245309.499988; an advanced value above the upper bound becomes the
    upper bound, one below the lower bound the lower bound, and one in range
    is kept.  (For the doubles of the program, see [Binary64].) *)
Lemma updateTime_JDay_real_clamped (deltaTime : R) n w :
  let advanced :=
    StelNavigator.JDay n + StelNavigator.timeSpeed n * deltaTime in
  let jd := StelNavigator.JDay (fst (StelNavigator.updateTime deltaTime n w)) in
  -34803211.500012 <= jd <= 38245309.499988 /\
  (38245309.499988 < advanced -> jd = 38245309.499988) /\
  (advanced < -34803211.500012 -> jd = -34803211.500012) /\
  (-34803211.500012 <= advanced <= 38245309.499988 -> jd = advanced).
Proof.
  intros advanced jd.
  destruct (updateTime_fields deltaTime n w) as (Hn & _).
  assert (Hjd : jd = clampJDay advanced) by (subst jd; rewrite Hn; reflexivity).
  rewrite Hjd.
  exact (clampJDay_bounds advanced).
Qed.

End TimeAdvance.

(** *** The bounds of the Julian Day on doubles *)

(** The order of [SpecFloat], which specifies the comparisons of
    [PrimFloat]: it is antisymmetric, reflexive off NaN, and total off
    NaN. *)
Lemma SFcompare_antisym x y c :
  SpecFloat.SFcompare x y = Some c ->
  SpecFloat.SFcompare y x = Some (CompOpp c).
Proof.
  destruct x as [s1 | s1 | | s1 m1 e1], y as [s2 | s2 | | s2 m2 e2]; cbn;
    try discriminate; intros H; injection H as <-; f_equal;
    try (destruct s1; try destruct s2; reflexivity).
  destruct s1, s2; try reflexivity; rewrite (Z.compare_antisym e1 e2);
    destruct (e1 ?= e2)%Z; cbn; try reflexivity;
    rewrite (Pos.compare_cont_antisym m1 m2 Eq); reflexivity.
Qed.

Lemma SFcompare_refl x :
  x <> SpecFloat.S754_nan -> SpecFloat.SFcompare x x = Some Eq.
Proof.
  destruct x as [s | s | | s m e]; cbn; intros H; try reflexivity.
  - destruct s; reflexivity.
  - contradiction.
  - rewrite Z.compare_refl, Pos.compare_cont_refl. destruct s; reflexivity.
Qed.

Lemma SFcompare_total x y :
  x <> SpecFloat.S754_nan -> y <> SpecFloat.S754_nan ->
  exists c, SpecFloat.SFcompare x y = Some c.
Proof.
  destruct x, y; cbn; intros Hx Hy; try contradiction; eexists; reflexivity.
Qed.

Lemma binary64_is_nan_spec x :
  PrimFloat.is_nan x = true <-> FloatOps.Prim2SF x = SpecFloat.S754_nan.
Proof.
  unfold PrimFloat.is_nan. rewrite FloatAxioms.eqb_spec.
  unfold SpecFloat.SFeqb. split.
  - intros H.
    destruct (FloatOps.Prim2SF x) as [s | s | | s m e] eqn:E;
      try reflexivity;
      rewrite SFcompare_refl in H by discriminate; discriminate.
  - intros ->. reflexivity.
Qed.

Lemma binary64_is_nan_false x :
  PrimFloat.is_nan x = false <-> FloatOps.Prim2SF x <> SpecFloat.S754_nan.
Proof.
  rewrite <- binary64_is_nan_spec.
  destruct (PrimFloat.is_nan x); split; congruence.
Qed.

(** Every comparison with NaN is false. *)
Lemma binary64_ltb_nan_r x y :
  PrimFloat.is_nan y = true -> PrimFloat.ltb x y = false.
Proof.
  intros H. apply binary64_is_nan_spec in H.
  rewrite FloatAxioms.ltb_spec, H.
  unfold SpecFloat.SFltb. destruct (FloatOps.Prim2SF x); reflexivity.
Qed.

Lemma binary64_ltb_nan_l x y :
  PrimFloat.is_nan x = true -> PrimFloat.ltb x y = false.
Proof.
  intros H. apply binary64_is_nan_spec in H.
  rewrite FloatAxioms.ltb_spec, H. reflexivity.
Qed.

Lemma binary64_leb_nan_r x y :
  PrimFloat.is_nan y = true -> PrimFloat.leb x y = false.
Proof.
  intros H. apply binary64_is_nan_spec in H.
  rewrite FloatAxioms.leb_spec, H.
  unfold SpecFloat.SFleb. destruct (FloatOps.Prim2SF x); reflexivity.
Qed.

(** Off NaN, [x < y] false gives [y <= x]. *)
Lemma binary64_ltb_false_leb x y :
  PrimFloat.is_nan x = false -> PrimFloat.is_nan y = false ->
  PrimFloat.ltb x y = false -> PrimFloat.leb y x = true.
Proof.
  rewrite !binary64_is_nan_false, FloatAxioms.ltb_spec, FloatAxioms.leb_spec.
  unfold SpecFloat.SFltb, SpecFloat.SFleb. intros Hx Hy.
  destruct (SFcompare_total _ _ Hx Hy) as [c Hc].
  rewrite Hc, (SFcompare_antisym _ _ _ Hc). destruct c; simpl; congruence.
Qed.

Lemma binary64_ltb_true_not_leb x y :
  PrimFloat.ltb x y = true -> PrimFloat.leb y x = false.
Proof.
  rewrite FloatAxioms.ltb_spec, FloatAxioms.leb_spec.
  unfold SpecFloat.SFltb, SpecFloat.SFleb.
  destruct (SpecFloat.SFcompare (FloatOps.Prim2SF x) (FloatOps.Prim2SF y))
    as [c | ] eqn:E; [ | discriminate].
  rewrite (SFcompare_antisym _ _ _ E). destruct c; simpl; congruence.
Qed.

Lemma binary64_ltb_leb x y :
  PrimFloat.ltb x y = true -> PrimFloat.leb x y = true.
Proof.
  rewrite FloatAxioms.ltb_spec, FloatAxioms.leb_spec.
  unfold SpecFloat.SFltb, SpecFloat.SFleb.
  destruct (SpecFloat.SFcompare _ _) as [[ | | ] | ]; congruence.
Qed.

(** No double is above the upper bound and below the lower one. *)
Lemma binary64_not_above_and_below a :
  PrimFloat.ltb Binary64.JDay_max a = true ->
  PrimFloat.ltb a Binary64.JDay_min = true -> False.
Proof.
  rewrite !FloatAxioms.ltb_spec.
  let v := eval vm_compute in (FloatOps.Prim2SF Binary64.JDay_max) in
  change (FloatOps.Prim2SF Binary64.JDay_max) with v.
  let v := eval vm_compute in (FloatOps.Prim2SF Binary64.JDay_min) in
  change (FloatOps.Prim2SF Binary64.JDay_min) with v.
  destruct (FloatOps.Prim2SF a) as [s | s | | s m e]; try destruct s;
    cbv beta iota delta [SpecFloat.SFltb SpecFloat.SFcompare]; discriminate.
Qed.

(** C6.  On the doubles of the program the Julian Day does not lie between
    -34803211.500012 and 38245309.499988 after every [updateTime]: 314
    calls of [increaseTimeSpeed] from the rate of the constructor,
    [JD_SECOND], leave the rate [+infinity]; [updateTime] with an elapsed
    delta of 0 then computes [0 + infinity * 0], which is NaN, both guards
    are false, and the Julian Day stays NaN, outside the bounds.  That is
    the one way out: whenever the advanced value [JDay + timeSpeed *
    deltaTime] is NaN the Julian Day is left NaN, and whenever it is not
    NaN (infinite or not) the Julian Day ends within the bounds, on the
    upper bound when the advanced value is above it, on the lower bound
    when it is below it, and on the advanced value itself when that is in
    range. *)
Theorem updateTime_JDay_NaN_unclamped :
  let timeSpeed :=
    Nat.iter 314 (Binary64.increaseTimeSpeed Binary64.JD_SECOND)
      Binary64.JD_SECOND in
  let jd := Binary64.updateTime_JDay PrimFloat.zero timeSpeed PrimFloat.zero in
  timeSpeed = PrimFloat.infinity /\
  PrimFloat.is_nan jd = true /\
  Binary64.in_range jd = false /\
  forall JDay timeSpeed deltaTime : Binary64.double,
    let advanced := PrimFloat.add JDay (PrimFloat.mul timeSpeed deltaTime) in
    let jd := Binary64.updateTime_JDay JDay timeSpeed deltaTime in
    (PrimFloat.is_nan advanced = true ->
     jd = advanced /\ Binary64.in_range jd = false) /\
    (PrimFloat.is_nan advanced = false ->
     Binary64.in_range jd = true /\
     (PrimFloat.ltb Binary64.JDay_max advanced = true ->
      jd = Binary64.JDay_max) /\
     (PrimFloat.ltb advanced Binary64.JDay_min = true ->
      jd = Binary64.JDay_min) /\
     (Binary64.in_range advanced = true -> jd = advanced)).
Proof.
  split; [vm_compute; reflexivity | ].
  split; [vm_compute; reflexivity | ].
  split; [vm_compute; reflexivity | ].
  intros JDay timeSpeed deltaTime advanced jd.
  assert (Hjd : jd =
            let j := if PrimFloat.ltb Binary64.JDay_max advanced
                     then Binary64.JDay_max else advanced in
            if PrimFloat.ltb j Binary64.JDay_min
            then Binary64.JDay_min else j) by reflexivity.
  rewrite Hjd. clear Hjd jd. cbv zeta. unfold Binary64.in_range.
  assert (Hmm : PrimFloat.ltb Binary64.JDay_max Binary64.JDay_min = false)
    by reflexivity.
  assert (Hlo : PrimFloat.leb Binary64.JDay_min Binary64.JDay_min = true)
    by reflexivity.
  assert (Hhi : PrimFloat.leb Binary64.JDay_max Binary64.JDay_max = true)
    by reflexivity.
  assert (Hlh : PrimFloat.leb Binary64.JDay_min Binary64.JDay_max = true)
    by reflexivity.
  assert (Nlo : PrimFloat.is_nan Binary64.JDay_min = false) by reflexivity.
  assert (Nhi : PrimFloat.is_nan Binary64.JDay_max = false) by reflexivity.
  generalize dependent advanced. intros a. split.
  - intros Ha.
    rewrite (binary64_ltb_nan_r _ _ Ha), (binary64_ltb_nan_l _ _ Ha),
      (binary64_leb_nan_r _ _ Ha).
    split; reflexivity.
  - intros Ha.
    destruct (PrimFloat.ltb Binary64.JDay_max a) eqn:Hgt.
    + rewrite Hmm, Hlh, Hhi. repeat split; try reflexivity.
      * intros Hlt. destruct (binary64_not_above_and_below _ Hgt Hlt).
      * intros H. apply andb_prop in H. destruct H as [_ H].
        rewrite (binary64_ltb_true_not_leb _ _ Hgt) in H. discriminate.
    + destruct (PrimFloat.ltb a Binary64.JDay_min) eqn:Hlt.
      * rewrite Hlo, Hlh. repeat split; try reflexivity; try discriminate.
        intros H. apply andb_prop in H. destruct H as [H _].
        rewrite (binary64_ltb_true_not_leb _ _ Hlt) in H. discriminate.
      * rewrite (binary64_ltb_false_leb _ _ Ha Nlo Hlt),
          (binary64_ltb_false_leb _ _ Nhi Ha Hgt).
        repeat split; try reflexivity; discriminate.
Qed.

Section SetTime.

Context {Planet Observer : Type}.
Context {PA : Planet.API Planet} {OA : StelObserver.API Planet Observer}.

Variable JD_SECOND : R.
Variable setJDay : R -> StelNavigator.t Observer -> StelNavigator.t Observer.

Implicit Type n : StelNavigator.t Observer.

(** The Julian Day [addSiderealDays] hands to the setter. *)
Lemma addSiderealDays_call (d : R) n :
  let home := StelObserver.getHomePlanet (StelNavigator.position n) in
  StelNavigator.addSiderealDays setJDay d n
  = setJDay
      (StelNavigator.getJDay n
       + (if String.eqb (Planet.getEnglishName home)
                        "Solar System StelObserver"
          then d else d * Planet.getSiderealDay home))
      n.
Proof.
  cbv zeta. unfold StelNavigator.addSiderealDays.
  destruct (String.eqb _ _); reflexivity.
Qed.

(** C7.  With a setter that stores the Julian Day it is given:
    [addSiderealDays d] advances the Julian Day by [d] times the
    sidereal-day length of the home planet, unless the home planet is the
    solar-system pseudo-body (the one whose English name the source tests
    for), and then by [d] itself.  With a sidereal day of 0.99727 one
    sidereal day advances it by 0.99727; on the pseudo-body by exactly 1. *)
Theorem addSiderealDays_advance (d : R) n :
  (forall jd m, StelNavigator.getJDay (setJDay jd m) = jd) ->
  let home := StelObserver.getHomePlanet (StelNavigator.position n) in
  let barycenter :=
    Planet.getEnglishName home = "Solar System StelObserver"%string in
  (~ barycenter ->
   StelNavigator.getJDay (StelNavigator.addSiderealDays setJDay d n)
   = StelNavigator.getJDay n + d * Planet.getSiderealDay home) /\
  (barycenter ->
   StelNavigator.getJDay (StelNavigator.addSiderealDays setJDay d n)
   = StelNavigator.getJDay n + d) /\
  (~ barycenter -> Planet.getSiderealDay home = 0.99727 ->
   StelNavigator.getJDay (StelNavigator.addSiderealDays setJDay 1 n)
   = StelNavigator.getJDay n + 0.99727) /\
  (barycenter ->
   StelNavigator.getJDay (StelNavigator.addSiderealDays setJDay 1 n)
   = StelNavigator.getJDay n + 1).
Proof.
  intros Hstore home barycenter.
  assert (Hcall : forall d',
    StelNavigator.getJDay (StelNavigator.addSiderealDays setJDay d' n)
    = StelNavigator.getJDay n
      + (if String.eqb (Planet.getEnglishName home)
                       "Solar System StelObserver"
         then d' else d' * Planet.getSiderealDay home)).
  { intros d'. rewrite addSiderealDays_call. apply Hstore. }
  subst barycenter.
  repeat split; intros; rewrite Hcall.
  - apply String.eqb_neq in H. fold home in H. rewrite H. reflexivity.
  - apply String.eqb_eq in H. fold home in H. rewrite H. reflexivity.
  - apply String.eqb_neq in H. fold home in H. rewrite H, H0. lra.
  - apply String.eqb_eq in H. fold home in H. rewrite H. reflexivity.
Qed.

(** C9, as the code has it.  With [JD_SECOND] positive, [getIsTimeNow]
    answers from its cache: on its first call, and whenever the Julian Day
    is more than [JD_SECOND / 4] away from the one of the last
    recomputation, it recomputes whether the Julian Day is within
    [JD_SECOND] of the system clock, stores and returns that; otherwise it
    returns the stored result without reading the clock.  So a call that
    recomputes returns true right after [setTimeNow] (for a setter that
    stores the Julian Day it is given), and false when the Julian Day is at
    least [JD_SECOND] away from the clock. *)
Theorem getIsTimeNow_cache (now : R) n
  (statics : option StelNavigator.IsTimeNowStatics) :
  0 < JD_SECOND ->
  (forall jd m, StelNavigator.getJDay (setJDay jd m) = jd) ->
  let within m :=
    Double.fabs (StelNavigator.getJDay m - now) <? JD_SECOND in
  let recomputes m :=
    statics = None \/
    exists st, statics = Some st /\
      JD_SECOND / 4
      < Rabs (StelNavigator.lastJD st - StelNavigator.getJDay m) in
  (within n = true <-> Rabs (StelNavigator.getJDay n - now) < JD_SECOND) /\
  (recomputes n ->
   StelNavigator.getIsTimeNow JD_SECOND now n statics
   = (within n, StelNavigator.mkStatics (StelNavigator.getJDay n) (within n)))
  /\
  (forall st, statics = Some st ->
   Rabs (StelNavigator.lastJD st - StelNavigator.getJDay n) <= JD_SECOND / 4 ->
   forall clock,
   StelNavigator.getIsTimeNow JD_SECOND clock n statics
   = (StelNavigator.previousResult st, st)) /\
  (recomputes (StelNavigator.setTimeNow setJDay now n) ->
   fst (StelNavigator.getIsTimeNow JD_SECOND now
          (StelNavigator.setTimeNow setJDay now n) statics) = true) /\
  (recomputes n ->
   JD_SECOND <= Rabs (StelNavigator.getJDay n - now) ->
   fst (StelNavigator.getIsTimeNow JD_SECOND now n statics) = false).
Proof.
  intros Hpos Hstore within recomputes.
  assert (Hwithin : forall m,
    within m = true <-> Rabs (StelNavigator.getJDay m - now) < JD_SECOND).
  { intros m. subst within. cbv beta. unfold Double.fabs, Double.ltb.
    destruct (Rlt_dec _ _); split; intros; try reflexivity;
      try assumption; try discriminate; contradiction. }
  assert (Hrec : forall m, recomputes m ->
    StelNavigator.getIsTimeNow JD_SECOND now m statics
    = (within m,
       StelNavigator.mkStatics (StelNavigator.getJDay m) (within m))).
  { intros m [Hnone | (st & Hsome & Hmoved)]; subst statics;
      unfold StelNavigator.getIsTimeNow; cbv zeta;
      cbn [StelNavigator.lastJD StelNavigator.previousResult].
    - replace (StelNavigator.getJDay m - StelNavigator.getJDay m) with 0
        by ring.
      unfold Double.fabs at 1. rewrite Rabs_R0.
      unfold Double.gtb at 1. rewrite ltb_false by lra. reflexivity.
    - unfold Double.fabs at 1, Double.gtb at 1.
      rewrite ltb_true by exact Hmoved. reflexivity. }
  split; [apply Hwithin | ].
  split; [apply Hrec | ].
  split.
  { intros st Hsome Hnear clock. subst statics.
    unfold StelNavigator.getIsTimeNow; cbv zeta.
    unfold Double.fabs at 1, Double.gtb at 1.
    rewrite ltb_false by exact Hnear. reflexivity. }
  split.
  - intros H. rewrite (Hrec _ H). cbn [fst].
    apply Hwithin. unfold StelNavigator.setTimeNow. rewrite Hstore.
    replace (now - now) with 0 by ring. rewrite Rabs_R0. exact Hpos.
  - intros H Hfar. rewrite (Hrec _ H). cbn [fst].
    destruct (within n) eqn:E; [ | reflexivity].
    apply Hwithin in E. lra.
Qed.

End SetTime.

Section MoveObserver.

Context {Planet Observer : Type}.
Context {PA : Planet.API Planet} {OA : StelObserver.API Planet Observer}.

Implicit Type n : StelNavigator.t Observer.
Implicit Type w : Collaborators.t Planet.

(** C8.  [moveObserverTo] takes [duration] when the target is on the
    current planet and [durationIfPlanetChange] otherwise.  If the chosen
    duration is positive the observer becomes a [SpaceShipObserver] from the
    current location to the target, on which [update(0)] is run once at
    once; otherwise (also at exactly 0) it becomes a [StelObserver] at the
    target, so the current location is the target at once (a static
    observer's location being the one it was built with).  Either way one
    [locationChanged] signal is emitted, for the target. *)
Theorem moveObserverTo_behaviour (target : StelLocation)
  (duration durationIfPlanetChange : R) n w :
  (forall l,
     StelObserver.getCurrentLocation (StelObserver.new_StelObserver l) = l) ->
  let here := StelNavigator.getCurrentLocation n in
  let d :=
    if String.eqb (StelLocation.planetName here)
                  (StelLocation.planetName target)
    then duration else durationIfPlanetChange in
  let r :=
    StelNavigator.moveObserverTo target duration durationIfPlanetChange n w in
  (StelLocation.planetName here = StelLocation.planetName target ->
   d = duration) /\
  (StelLocation.planetName here <> StelLocation.planetName target ->
   d = durationIfPlanetChange) /\
  (0 < d ->
   StelNavigator.position (fst r)
   = StelObserver.update 0
       (StelObserver.new_SpaceShipObserver here target d) /\
   Collaborators.calls (snd r)
   = Collaborators.calls w
     ++ [Collaborators.update_called 0;
         Collaborators.locationChanged_emitted target]) /\
  (d <= 0 ->
   StelNavigator.position (fst r) = StelObserver.new_StelObserver target /\
   StelNavigator.getCurrentLocation (fst r) = target /\
   Collaborators.calls (snd r)
   = Collaborators.calls w
     ++ [Collaborators.locationChanged_emitted target]) /\
  List.length (filter Collaborators.is_locationChanged
                 (Collaborators.calls (snd r)))
  = S (List.length (filter Collaborators.is_locationChanged
                      (Collaborators.calls w))) /\
  Collaborators.selectedObject (snd r) = Collaborators.selectedObject w.
Proof.
  intros Hstatic here d r.
  split.
  { intros H. subst d. apply String.eqb_eq in H. rewrite H. reflexivity. }
  split.
  { intros H. subst d. apply String.eqb_neq in H. rewrite H. reflexivity. }
  subst r. unfold StelNavigator.moveObserverTo. cbv zeta.
  fold here. fold d.
  unfold Double.gtb, Double.ltb.
  destruct (Rlt_dec 0 d) as [Hd | Hd];
    unfold StelNavigator.position_update, Collaborators.record;
    cbn [fst snd StelNavigator.position StelNavigator.set_position
         Collaborators.calls Collaborators.selectedObject].
  - split.
    { intros _. rewrite <- app_assoc. split; reflexivity. }
    split; [intros Hle; lra | ].
    split; [ | reflexivity].
    rewrite !filter_app, !length_app. cbn. rewrite Nat.add_0_r.
    apply Nat.add_1_r.
  - split; [intros Hlt; contradiction | ].
    split.
    { intros _. split; [reflexivity | ]. split; [ | reflexivity].
      unfold StelNavigator.getCurrentLocation.
      cbn [StelNavigator.position StelNavigator.set_position].
      apply Hstatic. }
    split; [ | reflexivity].
    rewrite filter_app, length_app. cbn. apply Nat.add_1_r.
Qed.

End MoveObserver.

(** ** The properties on the concrete sky *)

(** Paris is on Earth. *)
Lemma homePlanet_Paris : Sky.homePlanet (Sky.Static Sky.Paris) = Sky.Earth.
Proof. reflexivity. Qed.

(** Two vectors, two matrices are equal when their entries are. *)
Lemma Vec3d_eq (a b c a' b' c' : R) :
  a = a' -> b = b' -> c = c' -> Vec3d.mk a b c = Vec3d.mk a' b' c'.
Proof. intros -> -> ->. reflexivity. Qed.

Lemma Mat4d_eq (a0 a1 a2 a3 a4 a5 a6 a7 a8 a9 a10 a11 a12 a13 a14 a15
                b0 b1 b2 b3 b4 b5 b6 b7 b8 b9 b10 b11 b12 b13 b14 b15 : R) :
  a0 = b0 -> a1 = b1 -> a2 = b2 -> a3 = b3 ->
  a4 = b4 -> a5 = b5 -> a6 = b6 -> a7 = b7 ->
  a8 = b8 -> a9 = b9 -> a10 = b10 -> a11 = b11 ->
  a12 = b12 -> a13 = b13 -> a14 = b14 -> a15 = b15 ->
  Mat4d.mk a0 a1 a2 a3 a4 a5 a6 a7 a8 a9 a10 a11 a12 a13 a14 a15
  = Mat4d.mk b0 b1 b2 b3 b4 b5 b6 b7 b8 b9 b10 b11 b12 b13 b14 b15.
Proof. intros; subst; reflexivity. Qed.

Lemma identity_is_rotation : Mat4d.is_rotation Mat4d.identity.
Proof.
  unfold Mat4d.is_rotation, Mat4d.identity, Mat4d.transpose, Mat4d.mul.
  cbn [Mat4d.r0 Mat4d.r1 Mat4d.r2 Mat4d.r3 Mat4d.r4 Mat4d.r5 Mat4d.r6
       Mat4d.r7 Mat4d.r8 Mat4d.r9 Mat4d.r10 Mat4d.r11 Mat4d.r12 Mat4d.r13
       Mat4d.r14 Mat4d.r15].
  do 7 (split; [reflexivity | ]).
  apply Mat4d_eq; ring.
Qed.

(** At Julian Day 0 the sky's alt-az frame is the equatorial one. *)
Lemma navigatorAt_0_matAltAzToEquinoxEqu (l : StelLocation) (rate : R) :
  Planet.getSiderealDay (Sky.homePlanet (Sky.Static l)) <> 0 ->
  StelNavigator.matAltAzToEquinoxEqu (Sky.navigatorAt l 0 rate)
  = Mat4d.identity.
Proof.
  intros Hday.
  unfold Sky.navigatorAt, StelNavigator.updateTransformMatrices.
  cbn [StelNavigator.matAltAzToEquinoxEqu StelNavigator.JDay
       StelNavigator.position StelObserver.getRotAltAzToEquatorial
       Sky.Obs_API].
  replace (2 * PI * (0 / Planet.getSiderealDay (Sky.homePlanet (Sky.Static l))))
    with 0 by (field; exact Hday).
  unfold Mat4d.zrotation, Mat4d.identity. cbv zeta.
  rewrite cos_0, sin_0, Ropp_0. reflexivity.
Qed.

Lemma navigatorAt_matEquinoxEquToAltAz (l : StelLocation) (jd rate : R) :
  StelNavigator.matEquinoxEquToAltAz (Sky.navigatorAt l jd rate)
  = Mat4d.transpose
      (StelNavigator.matAltAzToEquinoxEqu (Sky.navigatorAt l jd rate)).
Proof. reflexivity. Qed.

Lemma Paris_rotation (rate : R) :
  Mat4d.is_rotation
    (StelNavigator.matAltAzToEquinoxEqu (Sky.navigatorAt Sky.Paris 0 rate)).
Proof.
  rewrite navigatorAt_0_matAltAzToEquinoxEqu.
  - exact identity_is_rotation.
  - rewrite homePlanet_Paris.
    change (Planet.getSiderealDay Sky.Earth) with 0.99727. lra.
Qed.

Lemma sqrt_4 : sqrt 4 = 2.
Proof. replace 4 with (2 * 2) by ring. apply sqrt_square. lra. Qed.

(** C4 fails as stated: in Paris at Julian Day 0, where both alt-az
    matrices are rotations, the vector (2, 0, 0) comes back from the round
    trip as (2, 0, 0), and its normalisation is (1, 0, 0). *)
Lemma roundtrip_not_normalized :
  let n := Sky.navigatorAt Sky.Paris 0 0 in
  let v := Vec3d.mk 2 0 0 in
  let n' := StelNavigator.setAltAzVisionDirection v n in
  let back :=
    StelNavigator.equinoxEquToAltAz n'
      (StelNavigator.earthEquVisionDirection n') in
  Mat4d.is_rotation (StelNavigator.matAltAzToEquinoxEqu n) /\
  Mat4d.is_rotation (StelNavigator.matEquinoxEquToAltAz n) /\
  back = Vec3d.mk 2 0 0 /\
  Vec3d.normalize v = Vec3d.mk 1 0 0 /\
  back <> Vec3d.normalize v.
Proof.
  intros n v n' back.
  assert (Hrot : Mat4d.is_rotation (StelNavigator.matAltAzToEquinoxEqu n))
    by apply Paris_rotation.
  assert (Hid : StelNavigator.matAltAzToEquinoxEqu n = Mat4d.identity).
  { apply navigatorAt_0_matAltAzToEquinoxEqu. rewrite homePlanet_Paris.
    change (Planet.getSiderealDay Sky.Earth) with 0.99727. lra. }
  assert (Hback : back = Vec3d.mk 2 0 0).
  { change back with
      (Mat4d.transpose (StelNavigator.matAltAzToEquinoxEqu n)
       *v (StelNavigator.matAltAzToEquinoxEqu n *v v)).
    apply rotation_transpose_mulv, Hrot. }
  assert (Hnorm : Vec3d.normalize v = Vec3d.mk 1 0 0).
  { unfold Vec3d.normalize, Vec3d.lengthSquared, v.
    cbn [Vec3d.x Vec3d.y Vec3d.z].
    replace (2 * 2 + 0 * 0 + 0 * 0) with 4 by ring. rewrite sqrt_4.
    apply Vec3d_eq; field. }
  split; [exact Hrot | ].
  split.
  { unfold n. rewrite navigatorAt_matEquinoxEquToAltAz. fold n. rewrite Hid.
    exact identity_is_rotation. }
  split; [exact Hback | ].
  split; [exact Hnorm | ].
  rewrite Hback, Hnorm. intros H. apply (f_equal Vec3d.x) in H.
  cbn [Vec3d.x] in H. lra.
Qed.

(** The round trip of (0, 3, 4) in Paris at Julian Day 0. *)
Lemma setAltAzVisionDirection_roundtrip_witness :
  let n := Sky.navigatorAt Sky.Paris 0 0 in
  let v := Vec3d.mk 0 3 4 in
  let n' := StelNavigator.setAltAzVisionDirection v n in
  Mat4d.is_rotation (StelNavigator.matAltAzToEquinoxEqu n) /\
  StelNavigator.equinoxEquToAltAz n'
    (StelNavigator.earthEquVisionDirection n') = v.
Proof.
  split.
  - apply Paris_rotation.
  - exact (proj1 (setAltAzVisionDirection_roundtrip (Vec3d.mk 0 3 4)
                    (Sky.navigatorAt Sky.Paris 0 0)
                    (Paris_rotation 0)
                    (navigatorAt_matEquinoxEquToAltAz Sky.Paris 0 0))).
Defined.


Lemma JD_SECOND_pos : 0 < Sky.JD_SECOND.
Proof. unfold Sky.JD_SECOND. lra. Qed.

Lemma setJDay_stores (jd : R) (m : StelNavigator.t Sky.Obs) :
  StelNavigator.getJDay (Sky.setJDay jd m) = jd.
Proof. reflexivity. Qed.

(** Two steps up and two steps down from a paused clock. *)
Lemma timeSpeed_stepping_witness :
  let inc := StelNavigator.increaseTimeSpeed Sky.JD_SECOND in
  let dec := StelNavigator.decreaseTimeSpeed Sky.JD_SECOND in
  let n := Sky.navigatorAt Sky.Paris 0 0 in
  0 < Sky.JD_SECOND /\
  StelNavigator.timeSpeed (inc (inc n)) = 10 * Sky.JD_SECOND /\
  StelNavigator.timeSpeed (dec (dec n)) = - 10 * Sky.JD_SECOND.
Proof.
  pose proof (timeSpeed_stepping Sky.JD_SECOND
                (Sky.navigatorAt Sky.Paris 0 0) JD_SECOND_pos) as H.
  cbv zeta in H. destruct H as (Hinc & Hdec & _).
  split; [exact JD_SECOND_pos | ].
  split.
  - exact (proj2 (Hinc eq_refl)).
  - exact (proj2 (Hdec eq_refl)).
Defined.

(** From Julian Day 1e9 and from -1e9, a paused clock lands on the
    bounds. *)
Lemma updateTime_JDay_real_clamped_witness :
  let late := Sky.navigatorAt Sky.Paris 1000000000 0 in
  let early := Sky.navigatorAt Sky.Paris (-1000000000) 0 in
  StelNavigator.JDay (fst (StelNavigator.updateTime 1 late Sky.quiet))
  = 38245309.499988 /\
  StelNavigator.JDay (fst (StelNavigator.updateTime 1 early Sky.quiet))
  = -34803211.500012.
Proof.
  split.
  - apply (updateTime_JDay_real_clamped 1
             (Sky.navigatorAt Sky.Paris 1000000000 0) Sky.quiet).
    change (38245309.499988 < 1000000000 + 0 * 1). lra.
  - apply (updateTime_JDay_real_clamped 1
             (Sky.navigatorAt Sky.Paris (-1000000000) 0) Sky.quiet).
    change (-1000000000 + 0 * 1 < -34803211.500012). lra.
Defined.

(** One sidereal day on Earth and one on the pseudo-body. *)
Lemma addSiderealDays_advance_witness :
  let onEarth := Sky.navigatorAt Sky.Paris 2451545 0 in
  let onBarycenter := Sky.navigatorAt Sky.Barycenter 2451545 0 in
  (forall jd m, StelNavigator.getJDay (Sky.setJDay jd m) = jd) /\
  StelNavigator.getJDay (StelNavigator.addSiderealDays Sky.setJDay 1 onEarth)
  = 2451545 + 0.99727 /\
  StelNavigator.getJDay
    (StelNavigator.addSiderealDays Sky.setJDay 1 onBarycenter)
  = 2451545 + 1.
Proof.
  split; [exact setJDay_stores | ].
  split.
  - refine (proj1 (proj2 (proj2
      (addSiderealDays_advance Sky.setJDay 1
         (Sky.navigatorAt Sky.Paris 2451545 0) setJDay_stores))) _ eq_refl).
    intros H. discriminate H.
  - exact (proj2 (proj2 (proj2
      (addSiderealDays_advance Sky.setJDay 1
         (Sky.navigatorAt Sky.Barycenter 2451545 0) setJDay_stores)))
      eq_refl).
Defined.

(** From Paris: a flight of 3 to Olympus Mons, and a move of duration 0 to
    Greenwich. *)
Lemma moveObserverTo_behaviour_witness :
  let n := Sky.navigatorAt Sky.Paris 2451545 0 in
  (forall l,
     StelObserver.getCurrentLocation (StelObserver.new_StelObserver l) = l) /\
  StelNavigator.position
    (fst (StelNavigator.moveObserverTo Sky.OlympusMons 0 3 n Sky.quiet))
  = Sky.Transitioning Sky.Paris Sky.OlympusMons 3 (0 + 0) /\
  StelNavigator.getCurrentLocation
    (fst (StelNavigator.moveObserverTo Sky.Greenwich 0 3 n Sky.quiet))
  = Sky.Greenwich.
Proof.
  assert (Hstatic : forall l,
    StelObserver.getCurrentLocation (StelObserver.new_StelObserver l) = l)
    by reflexivity.
  split; [exact Hstatic | ].
  split.
  - refine (proj1 (proj1 (proj2 (proj2
      (moveObserverTo_behaviour Sky.OlympusMons 0 3
         (Sky.navigatorAt Sky.Paris 2451545 0) Sky.quiet Hstatic))) _)).
    change (0 < 3). lra.
  - refine (proj1 (proj2 (proj1 (proj2 (proj2 (proj2
      (moveObserverTo_behaviour Sky.Greenwich 0 3
         (Sky.navigatorAt Sky.Paris 2451545 0) Sky.quiet Hstatic)))) _))).
    change (0 <= 0). lra.
Defined.

(** The first poll, right after [setTimeNow]. *)
Lemma getIsTimeNow_cache_witness :
  let n := Sky.navigatorAt Sky.Paris 2451545 0 in
  0 < Sky.JD_SECOND /\
  (forall jd m, StelNavigator.getJDay (Sky.setJDay jd m) = jd) /\
  fst (StelNavigator.getIsTimeNow Sky.JD_SECOND 2455000
         (StelNavigator.setTimeNow Sky.setJDay 2455000 n) None) = true.
Proof.
  split; [exact JD_SECOND_pos | ].
  split; [exact setJDay_stores | ].
  exact (proj1 (proj2 (proj2 (proj2
    (getIsTimeNow_cache Sky.JD_SECOND Sky.setJDay 2455000
       (Sky.navigatorAt Sky.Paris 2451545 0) None
       JD_SECOND_pos setJDay_stores))))
    (or_introl eq_refl)).
Defined.

(** C9 fails as stated, twice.  A first poll two seconds ahead of the clock
    answers false; when the clock has caught up, [setTimeNow] leaves the
    Julian Day where it was, and the poll that follows still answers false.
    And a first poll on the clock answers true; ten seconds later, the
    simulation having advanced by a fifth of a second only, the Julian Day is
    9.8 seconds away from the clock and the poll still answers true. *)
Lemma getIsTimeNow_stale :
  let s := Sky.JD_SECOND in
  let n0 := Sky.navigatorAt Sky.Paris 2451545 0 in
  let poll1 := StelNavigator.getIsTimeNow s (2451545 - 2 * s) n0 None in
  let n1 := StelNavigator.setTimeNow Sky.setJDay 2451545 n0 in
  let poll2 := StelNavigator.getIsTimeNow s 2451545 n1 (Some (snd poll1)) in
  let poll3 := StelNavigator.getIsTimeNow s 2451545 n0 None in
  let n2 :=
    fst (StelNavigator.updateTime 1 (StelNavigator.setTimeRate (s / 5) n0)
           Sky.quiet) in
  let poll4 :=
    StelNavigator.getIsTimeNow s (2451545 + 10 * s) n2 (Some (snd poll3)) in
  (fst poll1 = false /\
   StelNavigator.getJDay n1 = 2451545 /\
   fst poll2 = false) /\
  (fst poll3 = true /\
   StelNavigator.getJDay n2 = 2451545 + s / 5 /\
   s < Rabs (StelNavigator.getJDay n2 - (2451545 + 10 * s)) /\
   fst poll4 = true).
Proof.
  intros s n0 poll1 n1 poll2 poll3 n2 poll4.
  assert (Hs : s = 1 / 86400) by reflexivity.
  assert (H1 : poll1 = (false, StelNavigator.mkStatics 2451545 false)).
  { subst poll1. unfold StelNavigator.getIsTimeNow. cbv zeta.
    change (StelNavigator.getJDay n0) with 2451545.
    cbn [StelNavigator.lastJD StelNavigator.previousResult].
    unfold Double.fabs, Double.gtb.
    rewrite (ltb_false (Rabs (2451545 - (2451545 - 2 * s))) s).
    - rewrite (ltb_false (s / 4)); [reflexivity | ].
      replace (2451545 - 2451545) with 0 by ring. rewrite Rabs_R0. lra.
    - replace (2451545 - (2451545 - 2 * s)) with (2 * s) by ring.
      rewrite Rabs_pos_eq; lra. }
  assert (H2 : fst poll2 = false).
  { subst poll2. rewrite H1. cbn [snd].
    unfold StelNavigator.getIsTimeNow. cbv zeta.
    change (StelNavigator.getJDay n1) with 2451545.
    cbn [StelNavigator.lastJD StelNavigator.previousResult].
    unfold Double.fabs, Double.gtb.
    rewrite (ltb_false (s / 4)); [reflexivity | ].
    replace (2451545 - 2451545) with 0 by ring. rewrite Rabs_R0. lra. }
  assert (H3 : poll3 = (true, StelNavigator.mkStatics 2451545 true)).
  { subst poll3. unfold StelNavigator.getIsTimeNow. cbv zeta.
    change (StelNavigator.getJDay n0) with 2451545.
    cbn [StelNavigator.lastJD StelNavigator.previousResult].
    unfold Double.fabs, Double.gtb.
    replace (2451545 - 2451545) with 0 by ring. rewrite Rabs_R0.
    rewrite (ltb_true 0 s) by lra.
    rewrite (ltb_false (s / 4)) by lra. reflexivity. }
  assert (Hn2 : StelNavigator.getJDay n2 = 2451545 + s / 5).
  { subst n2. unfold StelNavigator.getJDay.
    destruct (updateTime_fields 1 (StelNavigator.setTimeRate (s / 5) n0)
                Sky.quiet) as (Hn & _).
    rewrite Hn.
    cbn [StelNavigator.JDay StelNavigator.set_position StelNavigator.set_JDay].
    change (StelNavigator.JDay (StelNavigator.setTimeRate (s / 5) n0))
      with 2451545.
    change (StelNavigator.timeSpeed (StelNavigator.setTimeRate (s / 5) n0))
      with (s / 5).
    replace (2451545 + s / 5 * 1) with (2451545 + s / 5) by ring.
    apply clampJDay_bounds.
    unfold StelNavigator.JDay_min, StelNavigator.JDay_max. lra. }
  assert (H4 : fst poll4 = true).
  { subst poll4. rewrite H3. cbn [snd].
    unfold StelNavigator.getIsTimeNow. cbv zeta. rewrite Hn2.
    cbn [StelNavigator.lastJD StelNavigator.previousResult].
    unfold Double.fabs, Double.gtb.
    rewrite (ltb_false (s / 4)); [reflexivity | ].
    replace (2451545 - (2451545 + s / 5)) with (- (s / 5)) by ring.
    rewrite Rabs_Ropp, Rabs_pos_eq; lra. }
  split.
  - rewrite H1. cbn [fst]. repeat split. exact H2.
  - rewrite H3. cbn [fst]. split; [reflexivity | ].
    split; [exact Hn2 | ]. split; [ | exact H4].
    rewrite Hn2.
    replace (2451545 + s / 5 - (2451545 + 10 * s)) with (- (s * (49 / 5)))
      by field.
    rewrite Rabs_Ropp, Rabs_pos_eq; lra.
Qed.

(** ** Matrix algebra *)

Ltac mat_fields :=
  cbn [Mat4d.r0 Mat4d.r1 Mat4d.r2 Mat4d.r3 Mat4d.r4 Mat4d.r5 Mat4d.r6
       Mat4d.r7 Mat4d.r8 Mat4d.r9 Mat4d.r10 Mat4d.r11 Mat4d.r12 Mat4d.r13
       Mat4d.r14 Mat4d.r15 Vec3d.x Vec3d.y Vec3d.z] in *.

Lemma mul_assoc (a b c : Mat4d) : a *m b *m c = a *m (b *m c).
Proof.
  destruct a, b, c. unfold Mat4d.mul. mat_fields.
  apply Mat4d_eq; ring.
Qed.

Lemma transpose_mul (a b : Mat4d) :
  Mat4d.transpose (a *m b) = Mat4d.transpose b *m Mat4d.transpose a.
Proof.
  destruct a, b. unfold Mat4d.mul, Mat4d.transpose. mat_fields.
  apply Mat4d_eq; ring.
Qed.

Lemma transpose_involutive (a : Mat4d) :
  Mat4d.transpose (Mat4d.transpose a) = a.
Proof. destruct a. reflexivity. Qed.

Lemma mul_identity_l (a : Mat4d) : Mat4d.identity *m a = a.
Proof.
  destruct a. unfold Mat4d.mul, Mat4d.identity. mat_fields.
  apply Mat4d_eq; ring.
Qed.

Lemma mul_identity_r (a : Mat4d) : a *m Mat4d.identity = a.
Proof.
  destruct a. unfold Mat4d.mul, Mat4d.identity. mat_fields.
  apply Mat4d_eq; ring.
Qed.

Lemma mulv_mul (a b : Mat4d) (v : Vec3d) :
  Mat4d.r3 b = 0 -> Mat4d.r7 b = 0 -> Mat4d.r11 b = 0 -> Mat4d.r15 b = 1 ->
  (a *m b) *v v = a *v (b *v v).
Proof.
  destruct a, b, v. unfold Mat4d.mul, Mat4d.mulv. mat_fields.
  intros -> -> -> ->. apply Vec3d_eq; ring.
Qed.

Lemma translation_neg_l (c : Vec3d) :
  Mat4d.translation (Vec3d.neg c) *m Mat4d.translation c = Mat4d.identity.
Proof.
  destruct c. unfold Mat4d.mul, Mat4d.translation, Vec3d.neg, Mat4d.identity.
  mat_fields. apply Mat4d_eq; ring.
Qed.

Lemma translation_neg_r (c : Vec3d) :
  Mat4d.translation c *m Mat4d.translation (Vec3d.neg c) = Mat4d.identity.
Proof.
  destruct c. unfold Mat4d.mul, Mat4d.translation, Vec3d.neg, Mat4d.identity.
  mat_fields. apply Mat4d_eq; ring.
Qed.

(** The transpose of a rotation is a right inverse too: its rows are
    orthonormal as its columns are. *)
Lemma rotation_mul_transpose (m : Mat4d) :
  Mat4d.is_rotation m -> m *m Mat4d.transpose m = Mat4d.identity.
Proof.
  destruct m as [a0 a1 a2 a3 a4 a5 a6 a7 a8 a9 a10 a11 a12 a13 a14 a15].
  unfold Mat4d.is_rotation, Mat4d.mul, Mat4d.transpose, Mat4d.identity.
  mat_fields.
  intros (H12 & H13 & H14 & H3 & H7 & H11 & H15 & Hm).
  subst. injection Hm as E00 E10 E20 _ E01 E11 E21 _ E02 E12 E22 _ _ _ _ _.
  (* the determinant and the cofactors *)
  set (d := a0 * (a5 * a10 - a9 * a6) - a4 * (a1 * a10 - a9 * a2)
            + a8 * (a1 * a6 - a5 * a2)).
  assert (Hd : d * d = 1).
  { transitivity
      ((a0 * a0 + a1 * a1 + a2 * a2 + 0 * 0)
       * ((a4 * a4 + a5 * a5 + a6 * a6 + 0 * 0)
          * (a8 * a8 + a9 * a9 + a10 * a10 + 0 * 0)
          - (a8 * a4 + a9 * a5 + a10 * a6 + 0 * 0)
            * (a4 * a8 + a5 * a9 + a6 * a10 + 0 * 0))
       - (a4 * a0 + a5 * a1 + a6 * a2 + 0 * 0)
         * ((a0 * a4 + a1 * a5 + a2 * a6 + 0 * 0)
            * (a8 * a8 + a9 * a9 + a10 * a10 + 0 * 0)
            - (a8 * a4 + a9 * a5 + a10 * a6 + 0 * 0)
              * (a0 * a8 + a1 * a9 + a2 * a10 + 0 * 0))
       + (a8 * a0 + a9 * a1 + a10 * a2 + 0 * 0)
         * ((a0 * a4 + a1 * a5 + a2 * a6 + 0 * 0)
            * (a4 * a8 + a5 * a9 + a6 * a10 + 0 * 0)
            - (a4 * a4 + a5 * a5 + a6 * a6 + 0 * 0)
              * (a0 * a8 + a1 * a9 + a2 * a10 + 0 * 0))).
    - unfold d. ring.
    - rewrite E00, E10, E20, E01, E11, E21, E02, E12, E22. ring. }
  assert (Hd0 : d <> 0) by (intros Z; rewrite Z in Hd; lra).
  assert (C00 : (a5 * a10 - a9 * a6) = d * a0).
  { transitivity ((a0 * a0 + a1 * a1 + a2 * a2 + 0 * 0) * (a5 * a10 - a9 * a6) + (a0 * a4 + a1 * a5 + a2 * a6 + 0 * 0) * (- (a1 * a10 - a9 * a2)) + (a0 * a8 + a1 * a9 + a2 * a10 + 0 * 0) * (a1 * a6 - a5 * a2)).
    - rewrite E00, E01, E02. ring.
    - unfold d. ring. }
  assert (C01 : (- (a1 * a10 - a9 * a2)) = d * a4).
  { transitivity ((a4 * a0 + a5 * a1 + a6 * a2 + 0 * 0) * (a5 * a10 - a9 * a6) + (a4 * a4 + a5 * a5 + a6 * a6 + 0 * 0) * (- (a1 * a10 - a9 * a2)) + (a4 * a8 + a5 * a9 + a6 * a10 + 0 * 0) * (a1 * a6 - a5 * a2)).
    - rewrite E10, E11, E12. ring.
    - unfold d. ring. }
  assert (C02 : (a1 * a6 - a5 * a2) = d * a8).
  { transitivity ((a8 * a0 + a9 * a1 + a10 * a2 + 0 * 0) * (a5 * a10 - a9 * a6) + (a8 * a4 + a9 * a5 + a10 * a6 + 0 * 0) * (- (a1 * a10 - a9 * a2)) + (a8 * a8 + a9 * a9 + a10 * a10 + 0 * 0) * (a1 * a6 - a5 * a2)).
    - rewrite E20, E21, E22. ring.
    - unfold d. ring. }
  assert (C10 : (- (a4 * a10 - a8 * a6)) = d * a1).
  { transitivity ((a0 * a0 + a1 * a1 + a2 * a2 + 0 * 0) * (- (a4 * a10 - a8 * a6)) + (a0 * a4 + a1 * a5 + a2 * a6 + 0 * 0) * (a0 * a10 - a8 * a2) + (a0 * a8 + a1 * a9 + a2 * a10 + 0 * 0) * (- (a0 * a6 - a4 * a2))).
    - rewrite E00, E01, E02. ring.
    - unfold d. ring. }
  assert (C11 : (a0 * a10 - a8 * a2) = d * a5).
  { transitivity ((a4 * a0 + a5 * a1 + a6 * a2 + 0 * 0) * (- (a4 * a10 - a8 * a6)) + (a4 * a4 + a5 * a5 + a6 * a6 + 0 * 0) * (a0 * a10 - a8 * a2) + (a4 * a8 + a5 * a9 + a6 * a10 + 0 * 0) * (- (a0 * a6 - a4 * a2))).
    - rewrite E10, E11, E12. ring.
    - unfold d. ring. }
  assert (C12 : (- (a0 * a6 - a4 * a2)) = d * a9).
  { transitivity ((a8 * a0 + a9 * a1 + a10 * a2 + 0 * 0) * (- (a4 * a10 - a8 * a6)) + (a8 * a4 + a9 * a5 + a10 * a6 + 0 * 0) * (a0 * a10 - a8 * a2) + (a8 * a8 + a9 * a9 + a10 * a10 + 0 * 0) * (- (a0 * a6 - a4 * a2))).
    - rewrite E20, E21, E22. ring.
    - unfold d. ring. }
  assert (C20 : (a4 * a9 - a8 * a5) = d * a2).
  { transitivity ((a0 * a0 + a1 * a1 + a2 * a2 + 0 * 0) * (a4 * a9 - a8 * a5) + (a0 * a4 + a1 * a5 + a2 * a6 + 0 * 0) * (- (a0 * a9 - a8 * a1)) + (a0 * a8 + a1 * a9 + a2 * a10 + 0 * 0) * (a0 * a5 - a4 * a1)).
    - rewrite E00, E01, E02. ring.
    - unfold d. ring. }
  assert (C21 : (- (a0 * a9 - a8 * a1)) = d * a6).
  { transitivity ((a4 * a0 + a5 * a1 + a6 * a2 + 0 * 0) * (a4 * a9 - a8 * a5) + (a4 * a4 + a5 * a5 + a6 * a6 + 0 * 0) * (- (a0 * a9 - a8 * a1)) + (a4 * a8 + a5 * a9 + a6 * a10 + 0 * 0) * (a0 * a5 - a4 * a1)).
    - rewrite E10, E11, E12. ring.
    - unfold d. ring. }
  assert (C22 : (a0 * a5 - a4 * a1) = d * a10).
  { transitivity ((a8 * a0 + a9 * a1 + a10 * a2 + 0 * 0) * (a4 * a9 - a8 * a5) + (a8 * a4 + a9 * a5 + a10 * a6 + 0 * 0) * (- (a0 * a9 - a8 * a1)) + (a8 * a8 + a9 * a9 + a10 * a10 + 0 * 0) * (a0 * a5 - a4 * a1)).
    - rewrite E20, E21, E22. ring.
    - unfold d. ring. }
  apply Mat4d_eq; try ring.
  - apply (Rmult_eq_reg_l d); [ | exact Hd0].
    transitivity (a0 * (a5 * a10 - a9 * a6) + a4 * (- (a1 * a10 - a9 * a2)) + a8 * (a1 * a6 - a5 * a2)).
    + rewrite C00, C01, C02. ring.
    + unfold d. ring.
  - apply (Rmult_eq_reg_l d); [ | exact Hd0].
    transitivity (a1 * (a5 * a10 - a9 * a6) + a5 * (- (a1 * a10 - a9 * a2)) + a9 * (a1 * a6 - a5 * a2)).
    + rewrite C00, C01, C02. ring.
    + unfold d. ring.
  - apply (Rmult_eq_reg_l d); [ | exact Hd0].
    transitivity (a2 * (a5 * a10 - a9 * a6) + a6 * (- (a1 * a10 - a9 * a2)) + a10 * (a1 * a6 - a5 * a2)).
    + rewrite C00, C01, C02. ring.
    + unfold d. ring.
  - apply (Rmult_eq_reg_l d); [ | exact Hd0].
    transitivity (a0 * (- (a4 * a10 - a8 * a6)) + a4 * (a0 * a10 - a8 * a2) + a8 * (- (a0 * a6 - a4 * a2))).
    + rewrite C10, C11, C12. ring.
    + unfold d. ring.
  - apply (Rmult_eq_reg_l d); [ | exact Hd0].
    transitivity (a1 * (- (a4 * a10 - a8 * a6)) + a5 * (a0 * a10 - a8 * a2) + a9 * (- (a0 * a6 - a4 * a2))).
    + rewrite C10, C11, C12. ring.
    + unfold d. ring.
  - apply (Rmult_eq_reg_l d); [ | exact Hd0].
    transitivity (a2 * (- (a4 * a10 - a8 * a6)) + a6 * (a0 * a10 - a8 * a2) + a10 * (- (a0 * a6 - a4 * a2))).
    + rewrite C10, C11, C12. ring.
    + unfold d. ring.
  - apply (Rmult_eq_reg_l d); [ | exact Hd0].
    transitivity (a0 * (a4 * a9 - a8 * a5) + a4 * (- (a0 * a9 - a8 * a1)) + a8 * (a0 * a5 - a4 * a1)).
    + rewrite C20, C21, C22. ring.
    + unfold d. ring.
  - apply (Rmult_eq_reg_l d); [ | exact Hd0].
    transitivity (a1 * (a4 * a9 - a8 * a5) + a5 * (- (a0 * a9 - a8 * a1)) + a9 * (a0 * a5 - a4 * a1)).
    + rewrite C20, C21, C22. ring.
    + unfold d. ring.
  - apply (Rmult_eq_reg_l d); [ | exact Hd0].
    transitivity (a2 * (a4 * a9 - a8 * a5) + a6 * (- (a0 * a9 - a8 * a1)) + a10 * (a0 * a5 - a4 * a1)).
    + rewrite C20, C21, C22. ring.
    + unfold d. ring.
Qed.

Lemma rotation_transpose (m : Mat4d) :
  Mat4d.is_rotation m -> Mat4d.is_rotation (Mat4d.transpose m).
Proof.
  intros H. pose proof (rotation_mul_transpose m H) as Hr.
  destruct H as (H12 & H13 & H14 & H3 & H7 & H11 & H15 & _).
  unfold Mat4d.is_rotation. rewrite transpose_involutive.
  destruct m. unfold Mat4d.transpose in *. mat_fields.
  repeat (split; [assumption | ]). exact Hr.
Qed.

Lemma rotation_mul (a b : Mat4d) :
  Mat4d.is_rotation a -> Mat4d.is_rotation b -> Mat4d.is_rotation (a *m b).
Proof.
  intros Ha Hb.
  assert (Hm : Mat4d.transpose (a *m b) *m (a *m b) = Mat4d.identity).
  { rewrite transpose_mul, mul_assoc, <- (mul_assoc (Mat4d.transpose a)).
    destruct Ha as (_ & _ & _ & _ & _ & _ & _ & Ha). rewrite Ha.
    rewrite mul_identity_l.
    destruct Hb as (_ & _ & _ & _ & _ & _ & _ & Hb). exact Hb. }
  destruct Ha as (A12 & A13 & A14 & A3 & A7 & A11 & A15 & _).
  destruct Hb as (B12 & B13 & B14 & B3 & B7 & B11 & B15 & _).
  unfold Mat4d.is_rotation. split; [ | split; [ | split; [ | split;
    [ | split; [ | split; [ | split; [ | exact Hm]]]]]]];
    destruct a, b; unfold Mat4d.mul; mat_fields; subst; ring.
Qed.

Lemma xrotation_is_rotation (angle : R) :
  Mat4d.is_rotation (Mat4d.xrotation angle).
Proof.
  pose proof (sin2_cos2 angle) as H. unfold Rsqr in H.
  unfold Mat4d.is_rotation, Mat4d.xrotation, Mat4d.transpose, Mat4d.mul,
    Mat4d.identity. cbv zeta. mat_fields.
  do 7 (split; [reflexivity | ]).
  apply Mat4d_eq; try ring; rewrite <- H; ring.
Qed.

Lemma zrotation_is_rotation (angle : R) :
  Mat4d.is_rotation (Mat4d.zrotation angle).
Proof.
  pose proof (sin2_cos2 angle) as H. unfold Rsqr in H.
  unfold Mat4d.is_rotation, Mat4d.zrotation, Mat4d.transpose, Mat4d.mul,
    Mat4d.identity. cbv zeta. mat_fields.
  do 7 (split; [reflexivity | ]).
  apply Mat4d_eq; try ring; rewrite <- H; ring.
Qed.

Lemma rotation_inverse_l (m : Mat4d) :
  Mat4d.is_rotation m -> Mat4d.transpose m *m m = Mat4d.identity.
Proof. intros H. apply H. Qed.

(** A rotation keeps scalar products. *)
Lemma rotation_dot (r : Mat4d) (a b : Vec3d) :
  Mat4d.is_rotation r -> Vec3d_dot (r *v a) (r *v b) = Vec3d_dot a b.
Proof.
  destruct r as [r0 r1 r2 r3 r4 r5 r6 r7 r8 r9 r10 r11 r12 r13 r14 r15].
  destruct a as [ax ay az], b as [bx by' bz].
  unfold Mat4d.is_rotation, Mat4d.mul, Mat4d.transpose, Mat4d.identity,
    Mat4d.mulv, Vec3d_dot. mat_fields.
  intros (H12 & H13 & H14 & H3 & H7 & H11 & H15 & Hm). subst.
  injection Hm as E00 E10 E20 _ E01 E11 E21 _ E02 E12 E22 _ _ _ _ _.
  transitivity
    ((r0 * r0 + r1 * r1 + r2 * r2 + 0 * 0) * (ax * bx)
     + (r4 * r0 + r5 * r1 + r6 * r2 + 0 * 0) * (ay * bx)
     + (r8 * r0 + r9 * r1 + r10 * r2 + 0 * 0) * (az * bx)
     + (r0 * r4 + r1 * r5 + r2 * r6 + 0 * 0) * (ax * by')
     + (r4 * r4 + r5 * r5 + r6 * r6 + 0 * 0) * (ay * by')
     + (r8 * r4 + r9 * r5 + r10 * r6 + 0 * 0) * (az * by')
     + (r0 * r8 + r1 * r9 + r2 * r10 + 0 * 0) * (ax * bz)
     + (r4 * r8 + r5 * r9 + r6 * r10 + 0 * 0) * (ay * bz)
     + (r8 * r8 + r9 * r9 + r10 * r10 + 0 * 0) * (az * bz));
    [ring | rewrite E00, E10, E20, E01, E11, E21, E02, E12, E22; ring].
Qed.

Lemma lengthSquared_dot (a : Vec3d) : Vec3d.lengthSquared a = Vec3d_dot a a.
Proof. reflexivity. Qed.

Lemma static_matrices_rotations :
  Mat4d.is_rotation StelNavigator.matJ2000ToVsop87 /\
  Mat4d.is_rotation StelNavigator.matVsop87ToJ2000.
Proof.
  assert (H : Mat4d.is_rotation StelNavigator.matJ2000ToVsop87).
  { unfold StelNavigator.matJ2000ToVsop87.
    apply rotation_mul;
      [apply xrotation_is_rotation | apply zrotation_is_rotation]. }
  split; [exact H | apply rotation_transpose, H].
Qed.

Lemma det3_transpose (m : Mat4d) :
  Mat4d_det3 (Mat4d.transpose m) = Mat4d_det3 m.
Proof.
  destruct m. unfold Mat4d_det3, Mat4d.transpose. mat_fields. ring.
Qed.

Lemma det3_xrotation_zrotation (a b : R) :
  Mat4d_det3 (Mat4d.xrotation a *m Mat4d.zrotation b) = 1.
Proof.
  pose proof (sin2_cos2 a) as Ha. pose proof (sin2_cos2 b) as Hb.
  unfold Rsqr in Ha, Hb.
  unfold Mat4d_det3, Mat4d.xrotation, Mat4d.zrotation, Mat4d.mul.
  cbv zeta. mat_fields.
  transitivity ((sin a * sin a + cos a * cos a)
                * (sin b * sin b + cos b * cos b));
    [ring | rewrite Ha, Hb; ring].
Qed.

(** X1.  In exact arithmetic (the entries of the two constants taken as the
    real numbers their formulas denote, not as the doubles the program
    rounds them to): [matJ2000ToVsop87] is a proper rotation, orthogonal
    and of determinant 1, and so is [matVsop87ToJ2000], which is its
    inverse on both sides. *)
Theorem static_matrices_inverse :
  (Mat4d.is_rotation StelNavigator.matJ2000ToVsop87 /\
   Mat4d_det3 StelNavigator.matJ2000ToVsop87 = 1) /\
  (Mat4d.is_rotation StelNavigator.matVsop87ToJ2000 /\
   Mat4d_det3 StelNavigator.matVsop87ToJ2000 = 1) /\
  StelNavigator.matVsop87ToJ2000 *m StelNavigator.matJ2000ToVsop87
  = Mat4d.identity /\
  StelNavigator.matJ2000ToVsop87 *m StelNavigator.matVsop87ToJ2000
  = Mat4d.identity.
Proof.
  destruct static_matrices_rotations as (H & Ht).
  assert (Hd : Mat4d_det3 StelNavigator.matJ2000ToVsop87 = 1).
  { unfold StelNavigator.matJ2000ToVsop87.
    apply det3_xrotation_zrotation. }
  split; [split; [exact H | exact Hd] | ].
  split.
  { split; [exact Ht | ].
    unfold StelNavigator.matVsop87ToJ2000.
    rewrite det3_transpose. exact Hd. }
  unfold StelNavigator.matVsop87ToJ2000.
  split; [apply rotation_inverse_l, H | apply rotation_mul_transpose, H].
Qed.

Section DerivedMatrices.

Context {Planet Observer : Type}.
Context {PA : Planet.API Planet} {OA : StelObserver.API Planet Observer}.

Implicit Type n : StelNavigator.t Observer.

(** The matrices [updateTransformMatrices] assigns, written with the two
    matrices and the two positions it asks the observer for. *)
Lemma updateTransformMatrices_fields n :
  let n' := StelNavigator.updateTransformMatrices n in
  let A := StelObserver.getRotAltAzToEquatorial
             (StelNavigator.JDay n) (StelNavigator.position n) in
  let J := StelNavigator.matVsop87ToJ2000
           *m StelObserver.getRotEquatorialToVsop87
                (StelNavigator.position n) in
  let c := StelObserver.getCenterVsop87Pos (StelNavigator.position n) in
  let d := StelObserver.getDistanceFromCenter (StelNavigator.position n) in
  let tmp := StelNavigator.matJ2000ToVsop87 *m J *m A in
  StelNavigator.matAltAzToEquinoxEqu n' = A /\
  StelNavigator.matEquinoxEquToAltAz n' = Mat4d.transpose A /\
  StelNavigator.matEquinoxEquToJ2000 n' = J /\
  StelNavigator.matJ2000ToEquinoxEqu n' = Mat4d.transpose J /\
  StelNavigator.matJ2000ToAltAz n'
  = Mat4d.transpose A *m Mat4d.transpose J /\
  StelNavigator.matHeliocentricEclipticToEquinoxEqu n'
  = Mat4d.transpose J *m StelNavigator.matVsop87ToJ2000
    *m Mat4d.translation (Vec3d.neg c) /\
  StelNavigator.matAltAzToHeliocentricEcliptic n'
  = Mat4d.translation c *m tmp *m Mat4d.translation (Vec3d.mk 0 0 d) /\
  StelNavigator.matHeliocentricEclipticToAltAz n'
  = Mat4d.translation (Vec3d.mk 0 0 (- d)) *m Mat4d.transpose tmp
    *m Mat4d.translation (Vec3d.neg c).
Proof.
  cbv zeta. unfold StelNavigator.updateTransformMatrices.
  cbn [StelNavigator.matAltAzToEquinoxEqu
    StelNavigator.matEquinoxEquToAltAz StelNavigator.matEquinoxEquToJ2000
    StelNavigator.matJ2000ToEquinoxEqu StelNavigator.matJ2000ToAltAz
    StelNavigator.matHeliocentricEclipticToEquinoxEqu
    StelNavigator.matAltAzToHeliocentricEcliptic
    StelNavigator.matHeliocentricEclipticToAltAz].
  do 7 (split; [reflexivity | ]). reflexivity.
Qed.

(** X2.  After [updateTransformMatrices], [matJ2000ToAltAz] is the
    transpose of [matEquinoxEquToJ2000 * matAltAzToEquinoxEqu], the matrix
    that takes alt-az to J2000: whatever the observer returns. *)
Theorem matJ2000ToAltAz_transpose n :
  let n' := StelNavigator.updateTransformMatrices n in
  StelNavigator.matJ2000ToAltAz n'
  = Mat4d.transpose
      (StelNavigator.matEquinoxEquToJ2000 n'
       *m StelNavigator.matAltAzToEquinoxEqu n').
Proof.
  cbv zeta.
  destruct (updateTransformMatrices_fields n)
    as (HA & _ & HJ & _ & HJA & _).
  rewrite HA, HJ, HJA. symmetry. apply transpose_mul.
Qed.

(** X3.  In exact arithmetic (matrix entries, products and sums taken as
    real numbers; on doubles the identities hold up to rounding only): when
    the two matrices the observer returns are rotations in the sense of
    [Mat4d.is_rotation] (orthogonal, no translation), after
    [updateTransformMatrices] the five matrices between alt-az,
    equatorial-of-date and J2000 are such rotations, each stored pair is
    inverse of each other on both sides, and [matJ2000ToAltAz] undoes
    [matEquinoxEquToJ2000 * matAltAzToEquinoxEqu]. *)
Theorem updateTransformMatrices_rotations n :
  Mat4d.is_rotation
    (StelObserver.getRotAltAzToEquatorial
       (StelNavigator.JDay n) (StelNavigator.position n)) ->
  Mat4d.is_rotation
    (StelObserver.getRotEquatorialToVsop87 (StelNavigator.position n)) ->
  let n' := StelNavigator.updateTransformMatrices n in
  (Mat4d.is_rotation (StelNavigator.matAltAzToEquinoxEqu n') /\
   Mat4d.is_rotation (StelNavigator.matEquinoxEquToAltAz n') /\
   Mat4d.is_rotation (StelNavigator.matEquinoxEquToJ2000 n') /\
   Mat4d.is_rotation (StelNavigator.matJ2000ToEquinoxEqu n') /\
   Mat4d.is_rotation (StelNavigator.matJ2000ToAltAz n')) /\
  (StelNavigator.matEquinoxEquToAltAz n'
   *m StelNavigator.matAltAzToEquinoxEqu n' = Mat4d.identity /\
   StelNavigator.matAltAzToEquinoxEqu n'
   *m StelNavigator.matEquinoxEquToAltAz n' = Mat4d.identity) /\
  (StelNavigator.matJ2000ToEquinoxEqu n'
   *m StelNavigator.matEquinoxEquToJ2000 n' = Mat4d.identity /\
   StelNavigator.matEquinoxEquToJ2000 n'
   *m StelNavigator.matJ2000ToEquinoxEqu n' = Mat4d.identity) /\
  StelNavigator.matJ2000ToAltAz n'
  *m (StelNavigator.matEquinoxEquToJ2000 n'
      *m StelNavigator.matAltAzToEquinoxEqu n') = Mat4d.identity.
Proof.
  intros HA HE n'. subst n'.
  destruct (updateTransformMatrices_fields n)
    as (EA & EAt & EJ & EJt & EJA & _).
  rewrite EA, EAt, EJ, EJt, EJA.
  set (A := StelObserver.getRotAltAzToEquatorial _ _) in *.
  set (J := StelNavigator.matVsop87ToJ2000 *m _) in *.
  assert (HJ : Mat4d.is_rotation J).
  { apply rotation_mul; [apply static_matrices_rotations | exact HE]. }
  assert (HAt := rotation_transpose A HA).
  assert (HJt := rotation_transpose J HJ).
  assert (HJA : Mat4d.is_rotation (J *m A)) by (apply rotation_mul; assumption).
  split.
  { repeat (split; [assumption | ]). apply rotation_mul; assumption. }
  split.
  { split; [apply rotation_inverse_l, HA | apply rotation_mul_transpose, HA]. }
  split.
  { split; [apply rotation_inverse_l, HJ | apply rotation_mul_transpose, HJ]. }
  rewrite <- transpose_mul. apply rotation_inverse_l, HJA.
Qed.


Lemma translation_z_inverse (d : R) :
  Mat4d.translation (Vec3d.mk 0 0 (- d)) *m Mat4d.translation (Vec3d.mk 0 0 d)
  = Mat4d.identity /\
  Mat4d.translation (Vec3d.mk 0 0 d) *m Mat4d.translation (Vec3d.mk 0 0 (- d))
  = Mat4d.identity.
Proof.
  unfold Mat4d.mul, Mat4d.translation, Mat4d.identity. mat_fields.
  split; apply Mat4d_eq; ring.
Qed.

(** The last column of [m * translation v] is [m * v]. *)
Lemma last_column (m : Mat4d) (v : Vec3d) :
  Vec3d.mk (Mat4d.r12 (m *m Mat4d.translation v))
           (Mat4d.r13 (m *m Mat4d.translation v))
           (Mat4d.r14 (m *m Mat4d.translation v))
  = m *v v.
Proof.
  destruct m, v. unfold Mat4d.mul, Mat4d.mulv, Mat4d.translation.
  mat_fields. apply Vec3d_eq; ring.
Qed.

Lemma translation_mulv_minus (c v : Vec3d) :
  Vec3d_minus (Mat4d.translation c *v v) c = v.
Proof.
  destruct c, v. unfold Mat4d.mulv, Mat4d.translation, Vec3d_minus.
  mat_fields. apply Vec3d_eq; ring.
Qed.

(** The two alt-az/heliocentric matrices, for a rotation [tmp], a centre
    [c] and a distance [d]. *)
Lemma heliocentric_chain (tmp : Mat4d) (c : Vec3d) (d : R) :
  Mat4d.is_rotation tmp ->
  let a2h := Mat4d.translation c *m tmp *m Mat4d.translation (Vec3d.mk 0 0 d) in
  let h2a :=
    Mat4d.translation (Vec3d.mk 0 0 (- d)) *m Mat4d.transpose tmp
    *m Mat4d.translation (Vec3d.neg c) in
  let pos := Vec3d.mk (Mat4d.r12 a2h) (Mat4d.r13 a2h) (Mat4d.r14 a2h) in
  h2a *m a2h = Mat4d.identity /\
  a2h *m h2a = Mat4d.identity /\
  Vec3d.lengthSquared (Vec3d_minus pos c) = d * d /\
  a2h *v Vec3d.mk 0 0 0 = pos /\
  h2a *v pos = Vec3d.mk 0 0 0.
Proof.
  intros Hrot a2h h2a pos.
  assert (H1 : h2a *m a2h = Mat4d.identity).
  { subst h2a a2h. rewrite !mul_assoc.
    rewrite <- (mul_assoc (Mat4d.translation (Vec3d.neg c))).
    rewrite translation_neg_l, mul_identity_l.
    rewrite <- (mul_assoc (Mat4d.transpose tmp)).
    rewrite (rotation_inverse_l tmp Hrot), mul_identity_l.
    apply translation_z_inverse. }
  assert (H2 : a2h *m h2a = Mat4d.identity).
  { subst h2a a2h. rewrite !mul_assoc.
    rewrite <- (mul_assoc (Mat4d.translation (Vec3d.mk 0 0 d))).
    rewrite (proj2 (translation_z_inverse d)), mul_identity_l.
    rewrite <- (mul_assoc tmp).
    rewrite (rotation_mul_transpose tmp Hrot), mul_identity_l.
    apply translation_neg_r. }
  assert (Hpos : a2h *v Vec3d.mk 0 0 0 = pos).
  { subst pos. destruct a2h. unfold Mat4d.mulv. mat_fields.
    apply Vec3d_eq; ring. }
  assert (Haff : Mat4d.r3 a2h = 0 /\ Mat4d.r7 a2h = 0 /\ Mat4d.r11 a2h = 0
                 /\ Mat4d.r15 a2h = 1).
  { destruct Hrot as (_ & _ & _ & T3 & T7 & T11 & T15 & _).
    subst a2h. destruct tmp, c.
    unfold Mat4d.mul, Mat4d.translation. mat_fields. subst.
    repeat split; ring. }
  split; [exact H1 | ]. split; [exact H2 | ].
  split.
  { assert (Hq : pos = Mat4d.translation c *v (tmp *v Vec3d.mk 0 0 d)).
    { subst pos a2h. rewrite last_column.
      destruct Hrot as (_ & _ & _ & T3 & T7 & T11 & T15 & _).
      apply mulv_mul; assumption. }
    rewrite Hq, translation_mulv_minus, lengthSquared_dot.
    rewrite (rotation_dot tmp _ _ Hrot).
    unfold Vec3d_dot. mat_fields. ring. }
  split; [exact Hpos | ].
  rewrite <- Hpos.
  destruct Haff as (A3 & A7 & A11 & A15).
  rewrite <- (mulv_mul h2a a2h _ A3 A7 A11 A15), H1.
  unfold Mat4d.mulv, Mat4d.identity. mat_fields. apply Vec3d_eq; ring.
Qed.

(** A rotation after the translation by [- c] takes [c] to the origin. *)
Lemma rotation_translation_origin (r : Mat4d) (c : Vec3d) :
  Mat4d.is_rotation r ->
  (r *m Mat4d.translation (Vec3d.neg c)) *v c = Vec3d.mk 0 0 0.
Proof.
  intros (R12 & R13 & R14 & R3 & R7 & R11 & R15 & _).
  destruct r, c. unfold Mat4d.mul, Mat4d.mulv, Mat4d.translation, Vec3d.neg.
  mat_fields. subst. apply Vec3d_eq; ring.
Qed.

Lemma tmp_rotation n :
  Mat4d.is_rotation
    (StelObserver.getRotAltAzToEquatorial
       (StelNavigator.JDay n) (StelNavigator.position n)) ->
  Mat4d.is_rotation
    (StelObserver.getRotEquatorialToVsop87 (StelNavigator.position n)) ->
  Mat4d.is_rotation
    (StelNavigator.matJ2000ToVsop87
     *m (StelNavigator.matVsop87ToJ2000
         *m StelObserver.getRotEquatorialToVsop87 (StelNavigator.position n))
     *m StelObserver.getRotAltAzToEquatorial
          (StelNavigator.JDay n) (StelNavigator.position n)).
Proof.
  intros HA HE.
  apply rotation_mul; [ | exact HA].
  apply rotation_mul; [apply static_matrices_rotations | ].
  apply rotation_mul; [apply static_matrices_rotations | exact HE].
Qed.

(** X4.  In exact arithmetic (matrix entries, products and sums taken as
    real numbers; on doubles the products are the identity up to rounding
    only): when the two matrices the observer returns are rotations in the
    sense of [Mat4d.is_rotation], after [updateTransformMatrices] the two
    matrices between alt-az and heliocentric ecliptic coordinates are
    inverse of each other, on both sides, whatever the centre of the home
    planet and the distance of the observer from it. *)
Theorem heliocentric_matrices_inverse n :
  Mat4d.is_rotation
    (StelObserver.getRotAltAzToEquatorial
       (StelNavigator.JDay n) (StelNavigator.position n)) ->
  Mat4d.is_rotation
    (StelObserver.getRotEquatorialToVsop87 (StelNavigator.position n)) ->
  let n' := StelNavigator.updateTransformMatrices n in
  StelNavigator.matHeliocentricEclipticToAltAz n'
  *m StelNavigator.matAltAzToHeliocentricEcliptic n' = Mat4d.identity /\
  StelNavigator.matAltAzToHeliocentricEcliptic n'
  *m StelNavigator.matHeliocentricEclipticToAltAz n' = Mat4d.identity.
Proof.
  intros HA HE n'. subst n'.
  destruct (updateTransformMatrices_fields n)
    as (_ & _ & _ & _ & _ & _ & Ea2h & Eh2a).
  rewrite Ea2h, Eh2a.
  destruct (heliocentric_chain _
              (StelObserver.getCenterVsop87Pos (StelNavigator.position n))
              (StelObserver.getDistanceFromCenter (StelNavigator.position n))
              (tmp_rotation n HA HE)) as (H1 & H2 & _).
  split; [exact H1 | exact H2].
Qed.

(** X5.  In exact arithmetic (coordinates and matrix entries taken as real
    numbers; on doubles the equalities hold up to rounding only): when the
    two matrices the observer returns are rotations in the sense of
    [Mat4d.is_rotation], after [updateTransformMatrices] the position
    [getObserverHeliocentricEclipticPos] returns is at the observer's
    distance from the centre of the home planet; it is the image of the
    alt-az origin, and [matHeliocentricEclipticToAltAz] takes it back to
    the origin; [matHeliocentricEclipticToEquinoxEqu] takes the centre of
    the home planet to the origin. *)
Theorem observer_heliocentric_position n :
  Mat4d.is_rotation
    (StelObserver.getRotAltAzToEquatorial
       (StelNavigator.JDay n) (StelNavigator.position n)) ->
  Mat4d.is_rotation
    (StelObserver.getRotEquatorialToVsop87 (StelNavigator.position n)) ->
  let n' := StelNavigator.updateTransformMatrices n in
  let pos := StelNavigator.getObserverHeliocentricEclipticPos n' in
  let centre := StelObserver.getCenterVsop87Pos (StelNavigator.position n) in
  let d := StelObserver.getDistanceFromCenter (StelNavigator.position n) in
  Vec3d.lengthSquared (Vec3d_minus pos centre) = d * d /\
  StelNavigator.matAltAzToHeliocentricEcliptic n' *v Vec3d.mk 0 0 0 = pos /\
  StelNavigator.matHeliocentricEclipticToAltAz n' *v pos = Vec3d.mk 0 0 0 /\
  StelNavigator.matHeliocentricEclipticToEquinoxEqu n' *v centre
  = Vec3d.mk 0 0 0.
Proof.
  intros HA HE n' pos centre d. subst pos n'.
  unfold StelNavigator.getObserverHeliocentricEclipticPos.
  destruct (updateTransformMatrices_fields n)
    as (_ & _ & _ & _ & _ & Eh2e & Ea2h & Eh2a).
  rewrite Ea2h, Eh2a, Eh2e.
  destruct (heliocentric_chain _ centre d (tmp_rotation n HA HE))
    as (_ & _ & Hlen & Himg & Hback).
  split; [exact Hlen | ]. split; [exact Himg | ]. split; [exact Hback | ].
  apply rotation_translation_origin.
  apply rotation_mul; [ | apply static_matrices_rotations].
  apply rotation_transpose, rotation_mul;
    [apply static_matrices_rotations | exact HE].
Qed.

End DerivedMatrices.

Section VisionFrames.

Context {Observer : Type}.

Implicit Type n : StelNavigator.t Observer.

(** What the three setters leave in the three vision directions. *)
Lemma setter_results (v : Vec3d) n :
  let A := StelNavigator.matAltAzToEquinoxEqu n in
  let At := StelNavigator.matEquinoxEquToAltAz n in
  let J := StelNavigator.matEquinoxEquToJ2000 n in
  let Jt := StelNavigator.matJ2000ToEquinoxEqu n in
  (let m := StelNavigator.setAltAzVisionDirection v n in
   StelNavigator.altAzVisionDirection m = v /\
   StelNavigator.earthEquVisionDirection m = A *v v /\
   StelNavigator.J2000EquVisionDirection m = J *v (A *v v)) /\
  (let m := StelNavigator.setEquinoxEquVisionDirection v n in
   StelNavigator.earthEquVisionDirection m = v /\
   StelNavigator.J2000EquVisionDirection m = J *v v /\
   StelNavigator.altAzVisionDirection m = At *v v) /\
  (let m := StelNavigator.setJ2000EquVisionDirection v n in
   StelNavigator.J2000EquVisionDirection m = v /\
   StelNavigator.earthEquVisionDirection m = Jt *v v /\
   StelNavigator.altAzVisionDirection m = At *v (Jt *v v)).
Proof.
  cbv zeta.
  unfold StelNavigator.setAltAzVisionDirection,
    StelNavigator.setEquinoxEquVisionDirection,
    StelNavigator.setJ2000EquVisionDirection.
  cbv zeta.
  repeat split.
Qed.

Lemma rotation_mulv_transpose (m : Mat4d) (v : Vec3d) :
  Mat4d.is_rotation m -> m *v (Mat4d.transpose m *v v) = v.
Proof.
  intros H. pose proof (rotation_transpose_mulv (Mat4d.transpose m) v
                          (rotation_transpose m H)) as Ht.
  rewrite transpose_involutive in Ht. exact Ht.
Qed.

(** X6.  In exact arithmetic (coordinates and matrix entries taken as real
    numbers; on doubles the matrices are orthogonal, and the directions
    images of one another, up to rounding only): when
    [matAltAzToEquinoxEqu] and [matEquinoxEquToJ2000] are rotations in the
    sense of [Mat4d.is_rotation] and the two other matrices are their
    transposes (what [updateTransformMatrices] leaves when the observer
    returns rotations), each of the three vision-direction setters leaves
    the three stored directions images of one another by the four
    matrices: whichever frame was set, converting any stored direction to a
    neighbouring frame gives the direction stored for that frame. *)
Theorem vision_setters_consistent (v : Vec3d) n :
  Mat4d.is_rotation (StelNavigator.matAltAzToEquinoxEqu n) ->
  Mat4d.is_rotation (StelNavigator.matEquinoxEquToJ2000 n) ->
  StelNavigator.matEquinoxEquToAltAz n
  = Mat4d.transpose (StelNavigator.matAltAzToEquinoxEqu n) ->
  StelNavigator.matJ2000ToEquinoxEqu n
  = Mat4d.transpose (StelNavigator.matEquinoxEquToJ2000 n) ->
  forall m : StelNavigator.t Observer,
  m = StelNavigator.setAltAzVisionDirection v n \/
  m = StelNavigator.setEquinoxEquVisionDirection v n \/
  m = StelNavigator.setJ2000EquVisionDirection v n ->
  StelNavigator.earthEquVisionDirection m
  = StelNavigator.matAltAzToEquinoxEqu m
    *v StelNavigator.altAzVisionDirection m /\
  StelNavigator.altAzVisionDirection m
  = StelNavigator.matEquinoxEquToAltAz m
    *v StelNavigator.earthEquVisionDirection m /\
  StelNavigator.J2000EquVisionDirection m
  = StelNavigator.matEquinoxEquToJ2000 m
    *v StelNavigator.earthEquVisionDirection m /\
  StelNavigator.earthEquVisionDirection m
  = StelNavigator.matJ2000ToEquinoxEqu m
    *v StelNavigator.J2000EquVisionDirection m.
Proof.
  intros HA HJ HAt HJt m Hm.
  destruct (setter_results v n) as ((Ha1 & Ha2 & Ha3) & (He1 & He2 & He3)
                                    & (Hj1 & Hj2 & Hj3)).
  cbv zeta in *.
  assert (Hmat :
    StelNavigator.matAltAzToEquinoxEqu m = StelNavigator.matAltAzToEquinoxEqu n
    /\ StelNavigator.matEquinoxEquToAltAz m
       = StelNavigator.matEquinoxEquToAltAz n
    /\ StelNavigator.matEquinoxEquToJ2000 m
       = StelNavigator.matEquinoxEquToJ2000 n
    /\ StelNavigator.matJ2000ToEquinoxEqu m
       = StelNavigator.matJ2000ToEquinoxEqu n).
  { destruct Hm as [-> | [-> | ->]]; repeat split. }
  destruct Hmat as (-> & -> & -> & ->).
  rewrite HAt, HJt in *.
  set (A := StelNavigator.matAltAzToEquinoxEqu n) in *.
  set (J := StelNavigator.matEquinoxEquToJ2000 n) in *.
  destruct Hm as [-> | [-> | ->]].
  - rewrite Ha1, Ha2, Ha3.
    rewrite !rotation_transpose_mulv by assumption. repeat split.
  - rewrite He1, He2, He3.
    rewrite rotation_mulv_transpose, rotation_transpose_mulv by assumption.
    repeat split.
  - rewrite Hj1, Hj2, Hj3.
    rewrite !rotation_mulv_transpose by assumption. repeat split.
Qed.

End VisionFrames.

Section ViewMatrix.

Context {Observer : Type}.

Implicit Type n : StelNavigator.t Observer.

(** [1 / sqrt l], squared, is the inverse of [l]. *)
Lemma inv_sqrt_sqr (l : R) :
  0 < l -> (1 / sqrt l) * (1 / sqrt l) * l = 1.
Proof.
  intros Hl.
  assert (Hs : 0 < sqrt l) by (apply sqrt_lt_R0; exact Hl).
  assert (Hss : sqrt l * sqrt l = l) by (apply sqrt_sqrt; lra).
  rewrite <- Hss at 3. field. lra.
Qed.

Lemma normalize_unit_length (a : Vec3d) :
  0 < Vec3d.lengthSquared a -> Vec3d_dot (Vec3d.normalize a) (Vec3d.normalize a) = 1.
Proof.
  intros Hl. pose proof (inv_sqrt_sqr _ Hl) as H.
  unfold Vec3d.normalize, Vec3d_dot. cbv zeta.
  set (k := 1 / sqrt (Vec3d.lengthSquared a)) in *.
  unfold Vec3d.lengthSquared in H.
  destruct a as [ax ay az]. mat_fields.
  transitivity (k * k * (ax * ax + ay * ay + az * az)); [ring | exact H].
Qed.

(** The rows [normalize s], [normalize (s ^ f)], [- f] of the view matrix
    are orthonormal as soon as [f] has length one and [s] is a non-zero
    vector orthogonal to [f]. *)
Lemma view_rows_orthonormal (s f : Vec3d) :
  Vec3d_dot f f = 1 -> Vec3d_dot s f = 0 -> 0 < Vec3d.lengthSquared s ->
  let u := Vec3d.cross s f in
  let s' := Vec3d.normalize s in
  let u' := Vec3d.normalize u in
  let m :=
    Mat4d.mk (Vec3d.x s') (Vec3d.x u') (- Vec3d.x f) 0
             (Vec3d.y s') (Vec3d.y u') (- Vec3d.y f) 0
             (Vec3d.z s') (Vec3d.z u') (- Vec3d.z f) 0
             0 0 0 1 in
  Mat4d.is_rotation (Mat4d.transpose m).
Proof.
  intros Hff Hsf Hs u s' u' m.
  assert (Hu : Vec3d.lengthSquared u = Vec3d.lengthSquared s).
  { subst u. unfold Vec3d.lengthSquared, Vec3d.cross, Vec3d_dot in *.
    destruct s as [sx sy sz], f as [fx fy fz]. mat_fields.
    transitivity ((sx * sx + sy * sy + sz * sz) * (fx * fx + fy * fy + fz * fz)
                  - (sx * fx + sy * fy + sz * fz) * (sx * fx + sy * fy + sz * fz));
      [ring | rewrite Hff, Hsf; ring]. }
  pose proof (inv_sqrt_sqr _ Hs) as Hb.
  assert (Hu0 : 0 < Vec3d.lengthSquared u) by (rewrite Hu; exact Hs).
  pose proof (inv_sqrt_sqr _ Hu0) as Hg.
  subst m s' u'. unfold Vec3d.normalize. cbv zeta.
  set (b := 1 / sqrt (Vec3d.lengthSquared s)) in *.
  set (g := 1 / sqrt (Vec3d.lengthSquared u)) in *.
  clearbody b g. subst u. clear Hu Hu0 Hs.
  unfold Vec3d.lengthSquared, Vec3d.cross, Vec3d_dot in *.
  destruct s as [sx sy sz], f as [fx fy fz]. mat_fields.
  unfold Mat4d.is_rotation, Mat4d.transpose, Mat4d.mul, Mat4d.identity.
  mat_fields.
  do 7 (split; [reflexivity | ]).
  apply Mat4d_eq; try ring.
  - transitivity (b * b * (sx * sx + sy * sy + sz * sz)); [ring | exact Hb].
  - transitivity (- b * (sx * fx + sy * fy + sz * fz));
      [ring | rewrite Hsf; ring].
  - transitivity
      (g * g * ((sy * fz - sz * fy) * (sy * fz - sz * fy)
                + (sz * fx - sx * fz) * (sz * fx - sx * fz)
                + (sx * fy - sy * fx) * (sx * fy - sy * fx)));
      [ring | exact Hg].
  - transitivity (- b * (sx * fx + sy * fy + sz * fz));
      [ring | rewrite Hsf; ring].
  - transitivity (fx * fx + fy * fy + fz * fz); [ring | exact Hff].
Qed.

(** Under the same conditions the rows are right-handed: the determinant
    of the view matrix is 1. *)
Lemma view_rows_proper (s f : Vec3d) :
  Vec3d_dot f f = 1 -> Vec3d_dot s f = 0 -> 0 < Vec3d.lengthSquared s ->
  let u := Vec3d.cross s f in
  let s' := Vec3d.normalize s in
  let u' := Vec3d.normalize u in
  let m :=
    Mat4d.mk (Vec3d.x s') (Vec3d.x u') (- Vec3d.x f) 0
             (Vec3d.y s') (Vec3d.y u') (- Vec3d.y f) 0
             (Vec3d.z s') (Vec3d.z u') (- Vec3d.z f) 0
             0 0 0 1 in
  Mat4d.is_rotation (Mat4d.transpose m) /\ Mat4d_det3 m = 1.
Proof.
  intros Hff Hsf Hs u s' u' m.
  split; [exact (view_rows_orthonormal s f Hff Hsf Hs) | ].
  assert (Hu : Vec3d.lengthSquared u = Vec3d.lengthSquared s).
  { subst u. unfold Vec3d.lengthSquared, Vec3d.cross, Vec3d_dot in *.
    destruct s as [sx sy sz], f as [fx fy fz]. mat_fields.
    transitivity ((sx * sx + sy * sy + sz * sz) * (fx * fx + fy * fy + fz * fz)
                  - (sx * fx + sy * fy + sz * fz) * (sx * fx + sy * fy + sz * fz));
      [ring | rewrite Hff, Hsf; ring]. }
  pose proof (inv_sqrt_sqr _ Hs) as Hb.
  subst m s' u'. unfold Vec3d.normalize. cbv zeta. rewrite Hu.
  set (b := 1 / sqrt (Vec3d.lengthSquared s)) in *.
  clearbody b. subst u. clear Hu Hs.
  unfold Vec3d.lengthSquared, Vec3d.cross, Vec3d_dot, Mat4d_det3 in *.
  destruct s as [sx sy sz], f as [fx fy fz]. mat_fields.
  transitivity
    (b * b * ((sx * sx + sy * sy + sz * sz) * (fx * fx + fy * fy + fz * fz)
              - (sx * fx + sy * fy + sz * fz) * (sx * fx + sy * fy + sz * fz)));
    [ring | rewrite Hff, Hsf].
  transitivity (b * b * (sx * sx + sy * sy + sz * sz)); [ring | exact Hb].
Qed.

(** X7.  In exact arithmetic (coordinates taken as real numbers: no
    rounding, no underflow of a square), [updateModelViewMat] builds a
    proper rotation as view matrix, orthonormal and of determinant 1 (its
    rows are right-handed), and so is its transpose, whenever the
    construction is not degenerate.  In alt-azimuthal mode: when the alt-az
    vision direction is not vertical.  In equatorial mode: when
    [matEquinoxEquToAltAz] is a rotation, the alt-az direction is its image
    of the equatorial one, and the equatorial direction is not along the
    pole. *)
Theorem updateModelViewMat_orthonormal n :
  match StelNavigator.mountMode n with
  | StelNavigator.MountAltAzimuthal =>
      let a := StelNavigator.altAzVisionDirection n in
      0 < Vec3d.x a * Vec3d.x a + Vec3d.y a * Vec3d.y a
  | StelNavigator.MountEquatorial =>
      let e := StelNavigator.earthEquVisionDirection n in
      Mat4d.is_rotation (StelNavigator.matEquinoxEquToAltAz n) /\
      StelNavigator.altAzVisionDirection n
      = StelNavigator.matEquinoxEquToAltAz n *v e /\
      0 < Vec3d.x e * Vec3d.x e + Vec3d.y e * Vec3d.y e
  end ->
  let view :=
    StelNavigator.matAltAzModelView (StelNavigator.updateModelViewMat n) in
  (Mat4d.is_rotation view /\ Mat4d_det3 view = 1) /\
  (Mat4d.is_rotation (Mat4d.transpose view) /\
   Mat4d_det3 (Mat4d.transpose view) = 1) /\
  view *m Mat4d.transpose view = Mat4d.identity.
Proof.
  intros H view.
  assert (Htd : Mat4d.is_rotation (Mat4d.transpose view)
                /\ Mat4d_det3 view = 1).
  { subst view. unfold StelNavigator.updateModelViewMat. cbv zeta.
    cbn [StelNavigator.matAltAzModelView StelNavigator.set_matAltAzModelView].
    destruct (StelNavigator.mountMode n); cbn [fst snd].
    - (* alt-azimuthal *)
      cbv zeta in H.
      set (a := StelNavigator.altAzVisionDirection n) in *.
      assert (Hl : 0 < Vec3d.lengthSquared a).
      { unfold Vec3d.lengthSquared.
        pose proof (Rle_0_sqr (Vec3d.z a)) as Hz. unfold Rsqr in Hz. lra. }
      pose proof (inv_sqrt_sqr _ Hl) as Hk.
      apply view_rows_proper.
      + apply normalize_unit_length, Hl.
      + unfold Vec3d_dot, Vec3d.normalize. cbv zeta. mat_fields. ring.
      + unfold Vec3d.normalize, Vec3d.lengthSquared at 1. cbv zeta.
        mat_fields.
        set (k := 1 / sqrt (Vec3d.lengthSquared a)) in *.
        assert (Hk2 : 0 < k * k).
        { assert (k <> 0) by (intros Z; rewrite Z in Hk; lra).
          pose proof (Rle_0_sqr k) as Hsq. unfold Rsqr in Hsq.
          destruct Hsq as [Hsq | Hsq]; [exact Hsq | ].
          symmetry in Hsq. apply Rmult_integral in Hsq. tauto. }
        replace (Vec3d.y a * k * (Vec3d.y a * k)
                 + - (Vec3d.x a * k) * - (Vec3d.x a * k) + 0 * 0)
          with (k * k * (Vec3d.x a * Vec3d.x a + Vec3d.y a * Vec3d.y a))
          by ring.
        apply Rmult_lt_0_compat; assumption.
    - (* equatorial *)
      cbv zeta in H. destruct H as (Hrot & Hae & Hxy).
      unfold StelNavigator.equinoxEquToAltAz.
      set (e := StelNavigator.earthEquVisionDirection n) in *.
      set (r := StelNavigator.matEquinoxEquToAltAz n) in *.
      rewrite Hae.
      assert (Hle : 0 < Vec3d.lengthSquared e).
      { unfold Vec3d.lengthSquared.
        pose proof (Rle_0_sqr (Vec3d.z e)) as Hz. unfold Rsqr in Hz. lra. }
      assert (Hla : 0 < Vec3d.lengthSquared (r *v e)).
      { rewrite lengthSquared_dot, rotation_dot by exact Hrot.
        rewrite <- lengthSquared_dot. exact Hle. }
      pose proof (inv_sqrt_sqr _ Hle) as Hk.
      set (k := 1 / sqrt (Vec3d.lengthSquared e)) in *.
      assert (Hk2 : 0 < k * k).
      { assert (k <> 0) by (intros Z; rewrite Z in Hk; lra).
        pose proof (Rle_0_sqr k) as Hsq. unfold Rsqr in Hsq.
        destruct Hsq as [Hsq | Hsq]; [exact Hsq | ].
        symmetry in Hsq. apply Rmult_integral in Hsq. tauto. }
      set (se := Vec3d.mk (Vec3d.y (Vec3d.normalize e))
                          (- Vec3d.x (Vec3d.normalize e)) 0).
      apply view_rows_proper.
      + apply normalize_unit_length, Hla.
      + (* r se . normalize (r e) = k' * (se . e) = 0 *)
        set (k' := 1 / sqrt (Vec3d.lengthSquared (r *v e))).
        assert (Hn : Vec3d_dot (r *v se) (Vec3d.normalize (r *v e))
                     = k' * Vec3d_dot (r *v se) (r *v e)).
        { unfold Vec3d.normalize, Vec3d_dot. cbv zeta. fold k'. mat_fields. ring. }
        rewrite Hn, rotation_dot by exact Hrot.
        subst se. unfold Vec3d_dot, Vec3d.normalize. cbv zeta. mat_fields. ring.
      + rewrite lengthSquared_dot, rotation_dot by exact Hrot.
        subst se. unfold Vec3d_dot, Vec3d.normalize. cbv zeta. fold k. mat_fields.
        replace (Vec3d.y e * k * (Vec3d.y e * k)
                 + - (Vec3d.x e * k) * - (Vec3d.x e * k) + 0 * 0)
          with (k * k * (Vec3d.x e * Vec3d.x e + Vec3d.y e * Vec3d.y e))
          by ring.
        apply Rmult_lt_0_compat; assumption. }
  destruct Htd as (Ht & Hd).
  pose proof (rotation_transpose _ Ht) as Hv.
  rewrite transpose_involutive in Hv.
  split; [split; [exact Hv | exact Hd] | ].
  split; [split; [exact Ht | rewrite det3_transpose; exact Hd] | ].
  apply rotation_mul_transpose, Hv.
Qed.

End ViewMatrix.

Section RateLadder.

Context {Observer : Type}.

Variable JD_SECOND : R.

Implicit Type n : StelNavigator.t Observer.

Lemma increaseTimeSpeedLess_timeSpeed n :
  StelNavigator.timeSpeed (StelNavigator.increaseTimeSpeedLess JD_SECOND n)
  = let s := StelNavigator.timeSpeed n in
    if s >=? JD_SECOND then s * 2
    else if s <? - JD_SECOND then s / 2
    else if (s >=? 0) && (s <? JD_SECOND) then JD_SECOND
    else if (s >=? - JD_SECOND) && (s <? 0) then 0
    else s.
Proof. reflexivity. Qed.

Lemma decreaseTimeSpeedLess_timeSpeed n :
  StelNavigator.timeSpeed (StelNavigator.decreaseTimeSpeedLess JD_SECOND n)
  = let s := StelNavigator.timeSpeed n in
    if s >? JD_SECOND then s / 2
    else if s <=? - JD_SECOND then s * 2
    else if (s >? - JD_SECOND) && (s <=? 0) then - JD_SECOND
    else if (s >? 0) && (s <=? JD_SECOND) then 0
    else s.
Proof. reflexivity. Qed.

(** Case analysis on a comparison of two plain terms, closing the cases
    that cannot be. *)
Ltac no_if t :=
  lazymatch t with
  | context [if _ then _ else _] => fail
  | _ => idtac
  end.

Ltac plain_case :=
  match goal with
  | |- context [Rlt_dec ?a ?b] => no_if a; no_if b; destruct (Rlt_dec a b)
  | |- context [Rle_dec ?a ?b] => no_if a; no_if b; destruct (Rle_dec a b)
  end;
  cbn [andb]; try lra.

Ltac rate_unfold :=
  rewrite ?increaseTimeSpeed_timeSpeed, ?decreaseTimeSpeed_timeSpeed,
    ?increaseTimeSpeedLess_timeSpeed, ?decreaseTimeSpeedLess_timeSpeed;
  cbv zeta.

(** X8.  In exact arithmetic (the rate taken as a real number: no
    overflow, no rounding), with [JD_SECOND] positive, the time rate never
    gets stuck: each of the two increase functions returns a rate strictly
    above the one it was given, and each of the two decrease functions one
    strictly below, for every real rate.  (On doubles this ends where the
    rate overflows: 314 calls of [increaseTimeSpeed] from [JD_SECOND] leave
    [+infinity], where the four functions of [Binary64] stay.) *)
Theorem timeSpeed_strictly_monotone n :
  0 < JD_SECOND ->
  let s := StelNavigator.timeSpeed n in
  s < StelNavigator.timeSpeed (StelNavigator.increaseTimeSpeed JD_SECOND n) /\
  StelNavigator.timeSpeed (StelNavigator.decreaseTimeSpeed JD_SECOND n) < s /\
  s < StelNavigator.timeSpeed
        (StelNavigator.increaseTimeSpeedLess JD_SECOND n) /\
  StelNavigator.timeSpeed (StelNavigator.decreaseTimeSpeedLess JD_SECOND n)
  < s.
Proof.
  intros Hpos s. subst s.
  repeat split; rate_unfold; double_cases; lra.
Qed.

(** X9.  In exact arithmetic (the rate taken as a real number, where
    [(s * 10) / 10] is [s]; on doubles the quotient may differ from [s] in
    the last place), with [JD_SECOND] positive, a decrease undoes an
    increase exactly on the rates [s >= JD_SECOND],
    [s <= - 10 * JD_SECOND], [0] and [- JD_SECOND], and an increase undoes
    a decrease exactly on
    [s <= - JD_SECOND], [s >= 10 * JD_SECOND], [0] and [JD_SECOND]; in
    between, the pair of calls leaves another rate.  The same holds for
    the fine steps, with 2 for 10. *)
Theorem timeSpeed_undo n :
  0 < JD_SECOND ->
  let s := StelNavigator.timeSpeed n in
  let inc := StelNavigator.increaseTimeSpeed JD_SECOND in
  let dec := StelNavigator.decreaseTimeSpeed JD_SECOND in
  let incLess := StelNavigator.increaseTimeSpeedLess JD_SECOND in
  let decLess := StelNavigator.decreaseTimeSpeedLess JD_SECOND in
  (StelNavigator.timeSpeed (dec (inc n)) = s <->
   JD_SECOND <= s \/ s <= - (10 * JD_SECOND) \/ s = 0 \/ s = - JD_SECOND) /\
  (StelNavigator.timeSpeed (inc (dec n)) = s <->
   s <= - JD_SECOND \/ 10 * JD_SECOND <= s \/ s = 0 \/ s = JD_SECOND) /\
  (StelNavigator.timeSpeed (decLess (incLess n)) = s <->
   JD_SECOND <= s \/ s <= - (2 * JD_SECOND) \/ s = 0 \/ s = - JD_SECOND) /\
  (StelNavigator.timeSpeed (incLess (decLess n)) = s <->
   s <= - JD_SECOND \/ 2 * JD_SECOND <= s \/ s = 0 \/ s = JD_SECOND).
Proof.
  intros Hpos s inc dec incLess decLess.
  subst s inc dec incLess decLess.
  repeat split; rate_unfold; rate_unfold;
    generalize (StelNavigator.timeSpeed n); intros s;
    unfold Double.gtb, Double.geb, Double.ltb, Double.leb;
    repeat plain_case; lra.
Qed.


(** One step up and one step down the ladder of rates, for a factor
    [base] above one. *)
Lemma ladder_step (base s : R) :
  1 < base -> 0 < JD_SECOND -> on_ladder base JD_SECOND s ->
  on_ladder base JD_SECOND
    (if s >=? JD_SECOND then s * base
     else if s <? - JD_SECOND then s / base
     else if (s >=? 0) && (s <? JD_SECOND) then JD_SECOND
     else if (s >=? - JD_SECOND) && (s <? 0) then 0
     else s) /\
  on_ladder base JD_SECOND
    (if s >? JD_SECOND then s / base
     else if s <=? - JD_SECOND then s * base
     else if (s >? - JD_SECOND) && (s <=? 0) then - JD_SECOND
     else if (s >? 0) && (s <=? JD_SECOND) then 0
     else s).
Proof.
  intros Hbase Hpos Hs.
  assert (Hone : on_ladder base JD_SECOND JD_SECOND).
  { right. exists 0%nat. left. simpl. ring. }
  assert (Hmone : on_ladder base JD_SECOND (- JD_SECOND)).
  { right. exists 0%nat. right. simpl. ring. }
  assert (Hzero : on_ladder base JD_SECOND 0) by (left; reflexivity).
  assert (Hup : forall k, on_ladder base JD_SECOND (JD_SECOND * base ^ k * base)).
  { intros k. right. exists (S k). left. simpl. ring. }
  assert (Hdown : forall k,
            on_ladder base JD_SECOND (- (JD_SECOND * base ^ k) * base)).
  { intros k. right. exists (S k). right. simpl. ring. }
  assert (Hpow : forall k, 1 <= base ^ k).
  { intros k. apply pow_R1_Rle. lra. }
  assert (Hbig : forall k, JD_SECOND * base < JD_SECOND * base ^ S k + JD_SECOND * base
                           /\ JD_SECOND < JD_SECOND * base ^ S k).
  { intros k. simpl. pose proof (Hpow k) as Hk.
    assert (0 < JD_SECOND * (base * base ^ k)) by
      (apply Rmult_lt_0_compat; [lra | apply Rmult_lt_0_compat; lra]).
    split; [lra | ].
    assert (JD_SECOND * 1 < JD_SECOND * (base * base ^ k)).
    { apply Rmult_lt_compat_l; [lra | ].
      assert (base * 1 <= base * base ^ k)
        by (apply Rmult_le_compat_l; lra). lra. }
    lra. }
  destruct Hs as [-> | (k & [-> | ->])].
  - (* 0 *)
    split; double_cases; try lra; assumption.
  - (* JD_SECOND * base ^ k *)
    destruct k as [ | k].
    + replace (JD_SECOND * base ^ 0) with JD_SECOND by (simpl; ring).
      split; double_cases; try lra; try assumption.
      replace (JD_SECOND * base) with (JD_SECOND * base ^ 0 * base)
        by (simpl; ring).
      apply Hup.
    + destruct (Hbig k) as (_ & Hk).
      split; double_cases; try lra.
      * right. exists (S (S k)). left. simpl. ring.
      * right. exists k. left. simpl. field. lra.
  - (* - (JD_SECOND * base ^ k) *)
    destruct k as [ | k].
    + replace (- (JD_SECOND * base ^ 0)) with (- JD_SECOND) by (simpl; ring).
      split; double_cases; try lra; try assumption.
      replace (- JD_SECOND * base) with (- (JD_SECOND * base ^ 0) * base)
        by (simpl; ring).
      apply Hdown.
    + destruct (Hbig k) as (_ & Hk).
      split; double_cases; try lra.
      * right. exists k. right. simpl. field. lra.
      * right. exists (S (S k)). right. simpl. ring.
Qed.

(** X10.  In exact arithmetic (the rate taken as a real number: products
    by 10 and by 2 are exact and never overflow), with [JD_SECOND]
    positive, the coarse keys keep the rate on the ladder [0],
    [JD_SECOND * 10 ^ k], [- JD_SECOND * 10 ^ k]: from a rate on it (as
    the constructor's [JD_SECOND]), every sequence of
    [increaseTimeSpeed] and [decreaseTimeSpeed] ends on it.  The fine keys
    keep the ladder of the powers of 2. *)
Theorem timeSpeed_ladder (ks : list RateKey) n :
  0 < JD_SECOND ->
  (on_ladder 10 JD_SECOND (StelNavigator.timeSpeed n) ->
   on_ladder 10 JD_SECOND
     (StelNavigator.timeSpeed (pressRateKeys JD_SECOND ks n))) /\
  (on_ladder 2 JD_SECOND (StelNavigator.timeSpeed n) ->
   on_ladder 2 JD_SECOND
     (StelNavigator.timeSpeed (pressRateKeysLess JD_SECOND ks n))).
Proof.
  intros Hpos. split.
  - revert n. unfold pressRateKeys.
    induction ks as [ | k ks IH]; intros n Hn; [exact Hn | ].
    cbn [fold_left]. apply IH.
    destruct (ladder_step 10 _ ltac:(lra) Hpos Hn) as (Hup & Hdown).
    destruct k; [exact Hup | exact Hdown].
  - revert n. unfold pressRateKeysLess.
    induction ks as [ | k ks IH]; intros n Hn; [exact Hn | ].
    cbn [fold_left]. apply IH.
    destruct (ladder_step 2 _ ltac:(lra) Hpos Hn) as (Hup & Hdown).
    destruct k; [exact Hup | exact Hdown].
Qed.

End RateLadder.

Section TimeShifts.

Context {Planet Observer : Type}.
Context {PA : Planet.API Planet} {OA : StelObserver.API Planet Observer}.

Variable JD_SECOND : R.
Variable setJDay : R -> StelNavigator.t Observer -> StelNavigator.t Observer.

Implicit Type n : StelNavigator.t Observer.

(** X11.  [addSiderealDays d] is [addSolarDays] of [d] local sidereal days
    ([getLocalSideralDayLength]), or of [d] itself on the body the source
    tests for by name (the same call, on doubles as well); and, in exact
    arithmetic only (Julian Days and shifts taken as real numbers, whose
    addition is associative), for a setter that stores the Julian Day it is
    given, solar-day shifts add up and a shift by [- d] undoes a shift by
    [d]. *)
Theorem day_shifts_compose (a b d : R) n :
  (forall jd m, StelNavigator.getJDay (setJDay jd m) = jd) ->
  let name :=
    Planet.getEnglishName
      (StelObserver.getHomePlanet (StelNavigator.position n)) in
  (name <> "Solar System StelObserver"%string ->
   StelNavigator.addSiderealDays setJDay d n
   = StelNavigator.addSolarDays setJDay
       (d * StelNavigator.getLocalSideralDayLength n) n) /\
  (name = "Solar System StelObserver"%string ->
   StelNavigator.addSiderealDays setJDay d n
   = StelNavigator.addSolarDays setJDay d n) /\
  StelNavigator.getJDay
    (StelNavigator.addSolarDays setJDay b
       (StelNavigator.addSolarDays setJDay a n))
  = StelNavigator.getJDay (StelNavigator.addSolarDays setJDay (a + b) n) /\
  StelNavigator.getJDay
    (StelNavigator.addSolarDays setJDay (- d)
       (StelNavigator.addSolarDays setJDay d n))
  = StelNavigator.getJDay n.
Proof.
  intros Hstore name.
  split.
  { intros H. apply String.eqb_neq in H.
    unfold StelNavigator.addSiderealDays, StelNavigator.addSolarDays,
      StelNavigator.getLocalSideralDayLength. cbv zeta.
    fold name. rewrite H. reflexivity. }
  split.
  { intros H. apply String.eqb_eq in H.
    unfold StelNavigator.addSiderealDays, StelNavigator.addSolarDays.
    cbv zeta. fold name. rewrite H. reflexivity. }
  unfold StelNavigator.addSolarDays.
  rewrite !Hstore. split; ring.
Qed.

(** X12.  With [JD_SECOND] positive and the navigator left alone,
    [getIsTimeNow] reads the clock once: the first poll computes whether
    the Julian Day is within [JD_SECOND] of the clock, and every later poll
    returns that same answer whatever the clock reads by then.  Likewise
    with statics whose Julian Day is within [JD_SECOND / 4] of the current
    one, every poll returns the stored answer. *)
Theorem pollIsTimeNow_frozen (now : R) (clocks : list R) n :
  0 < JD_SECOND ->
  let first :=
    Double.fabs (StelNavigator.getJDay n - now) <? JD_SECOND in
  pollIsTimeNow JD_SECOND (now :: clocks) n None
  = (repeat first (S (List.length clocks)),
     Some (StelNavigator.mkStatics (StelNavigator.getJDay n) first)) /\
  (forall st,
   Rabs (StelNavigator.lastJD st - StelNavigator.getJDay n) <= JD_SECOND / 4 ->
   pollIsTimeNow JD_SECOND (now :: clocks) n (Some st)
   = (repeat (StelNavigator.previousResult st) (S (List.length clocks)),
      Some st)).
Proof.
  intros Hpos first.
  assert (Hcached : forall st cs,
    Rabs (StelNavigator.lastJD st - StelNavigator.getJDay n) <= JD_SECOND / 4 ->
    pollIsTimeNow JD_SECOND cs n (Some st)
    = (repeat (StelNavigator.previousResult st) (List.length cs), Some st)).
  { intros st cs Hnear. induction cs as [ | c cs IH]; [reflexivity | ].
    cbn [pollIsTimeNow List.length repeat]. cbv zeta.
    assert (Hpoll : StelNavigator.getIsTimeNow JD_SECOND c n (Some st)
                    = (StelNavigator.previousResult st, st)).
    { unfold StelNavigator.getIsTimeNow. cbv zeta.
      unfold Double.fabs at 1, Double.gtb at 1.
      rewrite ltb_false by exact Hnear. reflexivity. }
    rewrite Hpoll. cbn [fst snd]. rewrite IH. reflexivity. }
  split.
  - cbn [pollIsTimeNow repeat]. cbv zeta.
    assert (Hpoll : StelNavigator.getIsTimeNow JD_SECOND now n None
                    = (first, StelNavigator.mkStatics
                                (StelNavigator.getJDay n) first)).
    { unfold StelNavigator.getIsTimeNow. cbv zeta.
      cbn [StelNavigator.lastJD StelNavigator.previousResult].
      replace (StelNavigator.getJDay n - StelNavigator.getJDay n) with 0
        by ring.
      unfold Double.fabs at 1. rewrite Rabs_R0.
      unfold Double.gtb at 1. rewrite ltb_false by lra. reflexivity. }
    rewrite Hpoll. cbn [fst snd].
    rewrite Hcached.
    + reflexivity.
    + cbn [StelNavigator.lastJD].
      replace (StelNavigator.getJDay n - StelNavigator.getJDay n) with 0
        by ring.
      rewrite Rabs_R0. lra.
  - intros st Hnear. rewrite (Hcached st (now :: clocks) Hnear). reflexivity.
Qed.

End TimeShifts.

Section MoveToSelected.

Context {Planet Observer : Type}.
Context {PA : Planet.API Planet} {OA : StelObserver.API Planet Observer}.

Variable default_duration : R.
Variable default_durationIfPlanetChange : R.

Implicit Type n : StelNavigator.t Observer.
Implicit Type w : Collaborators.t Planet.

(** X13.  [moveObserverToSelected] always leaves tracking switched off.
    When nothing is selected, or the first selected object is not a planet,
    it leaves the observer alone and emits nothing.  When the first
    selected object is a planet, it is [moveObserverTo] with the default
    durations towards the current longitude, latitude and altitude on that
    planet, under the name "-" and an empty state: one [locationChanged]
    for that location is emitted, also when the planet is the one the
    observer is on. *)
Theorem moveObserverToSelected_behaviour n w :
  let r :=
    StelNavigator.moveObserverToSelected
      default_duration default_durationIfPlanetChange n w in
  let here := StelNavigator.getCurrentLocation n in
  snd r = false /\
  (Collaborators.selectedObject w = [] -> fst r = (n, w)) /\
  (forall id rest,
   Collaborators.selectedObject w = Collaborators.OtherObject id :: rest ->
   fst r = (n, w)) /\
  (forall pl rest,
   Collaborators.selectedObject w = Collaborators.PlanetObject pl :: rest ->
   let target :=
     StelLocation.mk "-" "" (Planet.getEnglishName pl)
       (StelLocation.longitude here) (StelLocation.latitude here)
       (StelLocation.altitude here) in
   fst r
   = StelNavigator.moveObserverTo target default_duration
       default_durationIfPlanetChange n w /\
   List.length (filter Collaborators.is_locationChanged
                  (Collaborators.calls (snd (fst r))))
   = S (List.length (filter Collaborators.is_locationChanged
                       (Collaborators.calls w))) /\
   exists before,
     Collaborators.calls (snd (fst r))
     = before ++ [Collaborators.locationChanged_emitted target]).
Proof.
  cbv zeta. unfold StelNavigator.moveObserverToSelected. cbv zeta.
  cbn [snd fst].
  split; [reflexivity | ].
  split.
  { intros H. unfold Collaborators.getWasSelected. rewrite H. reflexivity. }
  split.
  { intros id rest H. unfold Collaborators.getWasSelected. rewrite H.
    reflexivity. }
  intros pl rest H. unfold Collaborators.getWasSelected. rewrite H.
  cbn [Collaborators.as_Planet StelLocation.name StelLocation.state
       StelLocation.planetName StelLocation.longitude StelLocation.latitude
       StelLocation.altitude].
  split; [reflexivity | ].
  unfold StelNavigator.moveObserverTo. cbv zeta.
  match goal with
  | |- context [if ?c then _ else _] => destruct c
  end;
    unfold StelNavigator.position_update, Collaborators.record;
    cbn [fst snd Collaborators.calls].
  - split.
    + rewrite !filter_app, !length_app. cbn. rewrite Nat.add_0_r.
      apply Nat.add_1_r.
    + eexists. reflexivity.
  - split.
    + rewrite filter_app, length_app. cbn. apply Nat.add_1_r.
    + eexists. reflexivity.
Qed.

End MoveToSelected.

(** X14.  On doubles the time rate can get stuck: for every [JD_SECOND]
    below [+infinity], each of the four rate functions, given the rate
    [+infinity], passes [+infinity] to [setTimeRate] again, so that no key
    brings the rate back once it has overflowed. *)
Theorem timeSpeed_stuck_at_infinity (JD_SECOND : Binary64.double) :
  PrimFloat.ltb JD_SECOND PrimFloat.infinity = true ->
  Binary64.increaseTimeSpeed JD_SECOND PrimFloat.infinity
  = PrimFloat.infinity /\
  Binary64.decreaseTimeSpeed JD_SECOND PrimFloat.infinity
  = PrimFloat.infinity /\
  Binary64.increaseTimeSpeedLess JD_SECOND PrimFloat.infinity
  = PrimFloat.infinity /\
  Binary64.decreaseTimeSpeedLess JD_SECOND PrimFloat.infinity
  = PrimFloat.infinity.
Proof.
  intros Hlt. pose proof (binary64_ltb_leb _ _ Hlt) as Hle.
  unfold Binary64.increaseTimeSpeed, Binary64.decreaseTimeSpeed,
    Binary64.increaseTimeSpeedLess, Binary64.decreaseTimeSpeedLess.
  rewrite Hlt, Hle. repeat split.
Qed.

(** ** The further properties on the concrete sky *)

(** The two matrices the sky's observers return are rotations. *)
Lemma Sky_rotations (l : StelLocation) (jd rate : R) :
  let n := Sky.navigatorAt l jd rate in
  Mat4d.is_rotation
    (StelObserver.getRotAltAzToEquatorial
       (StelNavigator.JDay n) (StelNavigator.position n)) /\
  Mat4d.is_rotation
    (StelObserver.getRotEquatorialToVsop87 (StelNavigator.position n)).
Proof.
  split; [apply zrotation_is_rotation | exact identity_is_rotation].
Qed.

Lemma Sky_stored_rotations (l : StelLocation) (jd rate : R) :
  let n := Sky.navigatorAt l jd rate in
  Mat4d.is_rotation (StelNavigator.matAltAzToEquinoxEqu n) /\
  Mat4d.is_rotation (StelNavigator.matEquinoxEquToJ2000 n).
Proof.
  split.
  - apply zrotation_is_rotation.
  - change (Mat4d.is_rotation
              (StelNavigator.matVsop87ToJ2000 *m Mat4d.identity)).
    apply rotation_mul;
      [apply static_matrices_rotations | exact identity_is_rotation].
Qed.

(** A quarter of a sidereal day after Julian Day 0, in Paris. *)
Lemma updateTransformMatrices_rotations_witness :
  let n := Sky.navigatorAt Sky.Paris 0.2493175 0 in
  let n' := StelNavigator.updateTransformMatrices n in
  StelNavigator.matJ2000ToAltAz n'
  *m (StelNavigator.matEquinoxEquToJ2000 n'
      *m StelNavigator.matAltAzToEquinoxEqu n') = Mat4d.identity.
Proof.
  exact (proj2 (proj2 (proj2
    (updateTransformMatrices_rotations
       (Sky.navigatorAt Sky.Paris 0.2493175 0)
       (proj1 (Sky_rotations Sky.Paris 0.2493175 0))
       (proj2 (Sky_rotations Sky.Paris 0.2493175 0)))))).
Defined.

(** On Mauna Kea, away from the centre of the Earth, a quarter of a
    sidereal day after Julian Day 0. *)
Lemma heliocentric_matrices_inverse_witness :
  let n := Sky.navigatorAt MaunaKea 0.2493175 0 in
  let n' := StelNavigator.updateTransformMatrices n in
  StelObserver.getDistanceFromCenter (StelNavigator.position n) = 4205 /\
  StelNavigator.matHeliocentricEclipticToAltAz n'
  *m StelNavigator.matAltAzToHeliocentricEcliptic n' = Mat4d.identity.
Proof.
  split; [reflexivity | ].
  exact (proj1
    (heliocentric_matrices_inverse
       (Sky.navigatorAt MaunaKea 0.2493175 0)
       (proj1 (Sky_rotations MaunaKea 0.2493175 0))
       (proj2 (Sky_rotations MaunaKea 0.2493175 0)))).
Defined.

Lemma observer_heliocentric_position_witness :
  let n := Sky.navigatorAt MaunaKea 0.2493175 0 in
  let n' := StelNavigator.updateTransformMatrices n in
  let pos := StelNavigator.getObserverHeliocentricEclipticPos n' in
  Vec3d.lengthSquared (Vec3d_minus pos (Vec3d.mk 1 0 0)) = 4205 * 4205 /\
  StelNavigator.matHeliocentricEclipticToAltAz n' *v pos = Vec3d.mk 0 0 0.
Proof.
  pose proof
    (observer_heliocentric_position
       (Sky.navigatorAt MaunaKea 0.2493175 0)
       (proj1 (Sky_rotations MaunaKea 0.2493175 0))
       (proj2 (Sky_rotations MaunaKea 0.2493175 0))) as H.
  cbv zeta in H. destruct H as (Hd & _ & Hb & _).
  split; [exact Hd | exact Hb].
Defined.

Lemma vision_setters_consistent_witness :
  let n := Sky.navigatorAt Sky.Paris 2451545 0 in
  let m := StelNavigator.setJ2000EquVisionDirection (Vec3d.mk 0 3 4) n in
  StelNavigator.earthEquVisionDirection m
  = StelNavigator.matAltAzToEquinoxEqu m
    *v StelNavigator.altAzVisionDirection m.
Proof.
  exact (proj1
    (vision_setters_consistent (Vec3d.mk 0 3 4)
       (Sky.navigatorAt Sky.Paris 2451545 0)
       (proj1 (Sky_stored_rotations Sky.Paris 2451545 0))
       (proj2 (Sky_stored_rotations Sky.Paris 2451545 0))
       eq_refl eq_refl _ (or_intror (or_intror eq_refl)))).
Defined.

Lemma one_is_positive : 0 < 1 * 1 + 0 * 0.
Proof. lra. Qed.

(** Looking along the first axis, in alt-azimuthal mode. *)
Lemma updateModelViewMat_orthonormal_witness :
  let n := Sky.navigatorAt Sky.Paris 2451545 0 in
  Mat4d.is_rotation
    (StelNavigator.matAltAzModelView (StelNavigator.updateModelViewMat n)).
Proof.
  exact (proj1 (proj1
    (updateModelViewMat_orthonormal (Sky.navigatorAt Sky.Paris 2451545 0)
       one_is_positive))).
Defined.

Lemma timeSpeed_strictly_monotone_witness :
  let n := Sky.navigatorAt Sky.Paris 2451545 0 in
  0 < Sky.JD_SECOND /\
  StelNavigator.timeSpeed n
  < StelNavigator.timeSpeed
      (StelNavigator.increaseTimeSpeed Sky.JD_SECOND n).
Proof.
  split; [exact JD_SECOND_pos | ].
  exact (proj1
    (timeSpeed_strictly_monotone Sky.JD_SECOND
       (Sky.navigatorAt Sky.Paris 2451545 0) JD_SECOND_pos)).
Defined.

Lemma timeSpeed_undo_witness :
  let n := Sky.navigatorAt Sky.Paris 2451545 0 in
  0 < Sky.JD_SECOND /\
  StelNavigator.timeSpeed
    (StelNavigator.decreaseTimeSpeed Sky.JD_SECOND
       (StelNavigator.increaseTimeSpeed Sky.JD_SECOND n))
  = StelNavigator.timeSpeed n.
Proof.
  split; [exact JD_SECOND_pos | ].
  exact (proj2 (proj1
    (timeSpeed_undo Sky.JD_SECOND
       (Sky.navigatorAt Sky.Paris 2451545 0) JD_SECOND_pos))
    (or_intror (or_intror (or_introl eq_refl)))).
Defined.

Lemma real_time_on_ladder :
  on_ladder 10 Sky.JD_SECOND
    (StelNavigator.timeSpeed (Sky.navigatorAt Sky.Paris 2451545 Sky.JD_SECOND)).
Proof.
  right. exists 0%nat. left.
  change (Sky.JD_SECOND = Sky.JD_SECOND * 1). ring.
Qed.

(** Real time, then faster twice and slower four times. *)
Lemma timeSpeed_ladder_witness :
  let n := Sky.navigatorAt Sky.Paris 2451545 Sky.JD_SECOND in
  0 < Sky.JD_SECOND /\
  on_ladder 10 Sky.JD_SECOND
    (StelNavigator.timeSpeed
       (pressRateKeys Sky.JD_SECOND
          [Faster; Faster; Slower; Slower; Slower; Slower] n)).
Proof.
  split; [exact JD_SECOND_pos | ].
  exact (proj1
    (timeSpeed_ladder Sky.JD_SECOND
       [Faster; Faster; Slower; Slower; Slower; Slower]
       (Sky.navigatorAt Sky.Paris 2451545 Sky.JD_SECOND) JD_SECOND_pos)
    real_time_on_ladder).
Defined.

Lemma day_shifts_compose_witness :
  let n := Sky.navigatorAt Sky.Paris 2451545 0 in
  (forall jd m, StelNavigator.getJDay (Sky.setJDay jd m) = jd) /\
  StelNavigator.getJDay
    (StelNavigator.addSolarDays Sky.setJDay (- 7)
       (StelNavigator.addSolarDays Sky.setJDay 7 n))
  = StelNavigator.getJDay n.
Proof.
  split; [exact setJDay_stores | ].
  exact (proj2 (proj2 (proj2
    (day_shifts_compose Sky.setJDay 0 0 7
       (Sky.navigatorAt Sky.Paris 2451545 0) setJDay_stores)))).
Defined.

(** Three polls, the clock running away from the simulation. *)
Lemma pollIsTimeNow_frozen_witness :
  let n := Sky.navigatorAt Sky.Paris 2451545 0 in
  let first := Double.fabs (StelNavigator.getJDay n - 2451545) <? Sky.JD_SECOND in
  0 < Sky.JD_SECOND /\
  pollIsTimeNow Sky.JD_SECOND [2451545; 2451546; 2451547] n None
  = (repeat first 3, Some (StelNavigator.mkStatics (StelNavigator.getJDay n) first)).
Proof.
  split; [exact JD_SECOND_pos | ].
  exact (proj1
    (pollIsTimeNow_frozen Sky.JD_SECOND 2451545 [2451546; 2451547]
       (Sky.navigatorAt Sky.Paris 2451545 0) JD_SECOND_pos)).
Defined.

(** Mars selected while in Paris. *)
Lemma moveObserverToSelected_behaviour_witness :
  let n := Sky.navigatorAt Sky.Paris 2451545 0 in
  let w := Collaborators.mk [Collaborators.PlanetObject Sky.Mars] [] in
  fst (StelNavigator.moveObserverToSelected 1 1 n w)
  = StelNavigator.moveObserverTo
      (StelLocation.mk "-" "" "Mars" 2.35 48.85 0) 1 1 n w.
Proof.
  exact (proj1
    (proj2 (proj2 (proj2
       (moveObserverToSelected_behaviour 1 1
          (Sky.navigatorAt Sky.Paris 2451545 0)
          (Collaborators.mk [Collaborators.PlanetObject Sky.Mars] []))))
       Sky.Mars [] eq_refl)).
Defined.

(** The rate of real time is below [+infinity]; the rate is the one that
    314 calls of [increaseTimeSpeed] leave. *)
Lemma timeSpeed_stuck_at_infinity_witness :
  let overflowed :=
    Nat.iter 314 (Binary64.increaseTimeSpeed Binary64.JD_SECOND)
      Binary64.JD_SECOND in
  PrimFloat.ltb Binary64.JD_SECOND PrimFloat.infinity = true /\
  overflowed = PrimFloat.infinity /\
  Binary64.decreaseTimeSpeed Binary64.JD_SECOND overflowed
  = PrimFloat.infinity.
Proof.
  split; [reflexivity | ]. split; [vm_compute; reflexivity | ].
  replace (Nat.iter 314 (Binary64.increaseTimeSpeed Binary64.JD_SECOND)
             Binary64.JD_SECOND)
    with PrimFloat.infinity by (vm_compute; reflexivity).
  exact (proj1 (proj2
    (timeSpeed_stuck_at_infinity Binary64.JD_SECOND eq_refl))).
Defined.
